(** * amazon-order-mcp: a model of [amazon_order_mcp.py]

    The module keeps three globals ([_session], [_orders_client],
    [_pending_otp_request]), hands a prompt handler to the session
    provider, and exposes four tools.  The provider ([AmazonSession],
    [AmazonOrders]), [os.environ], [json.dumps], [traceback.format_exc],
    the clock and the Unicode tables behind [str.lower] are external:
    they are gathered in the record [Externals] and every operation is
    parameterised by it.  A Python [str] is read as its UTF-8 text, on
    which [+], [in], equality and emptiness are those of the bytes. *)

From Stdlib Require Import String Ascii ZArith List Bool Arith Lia DecimalString.
Import ListNotations.
Open Scope string_scope.
Open Scope list_scope.

(* ================================================================== *)
(** ** Python strings *)

Module PyString.

(** Lower-casing of the ASCII letters, every other byte left alone.
    This is not [str.lower], which works on Unicode and is external
    ([str_lower] below); it is what [str.lower] does to a text made of
    ASCII characters only, and it is enough to decide whether a
    lower-cased text contains an ASCII word (see [is_otp_prompt]). *)
Definition ascii_lower_char (c : ascii) : ascii :=
  let n := nat_of_ascii c in
  if (65 <=? n)%nat && (n <=? 90)%nat then ascii_of_nat (n + 32) else c.

Fixpoint ascii_lower (s : string) : string :=
  match s with
  | EmptyString => EmptyString
  | String c t => String (ascii_lower_char c) (ascii_lower t)
  end.

(** every character is below U+0080 *)
Fixpoint is_ascii (s : string) : bool :=
  match s with
  | EmptyString => true
  | String c t => (nat_of_ascii c <? 128)%nat && is_ascii t
  end.

(** [needle in hay] *)
Fixpoint contains (needle hay : string) : bool :=
  String.prefix needle hay
  || match hay with
     | EmptyString => false
     | String _ t => contains needle t
     end.

(** truthiness of a [str] *)
Definition nonempty (s : string) : bool :=
  match s with EmptyString => false | String _ _ => true end.

Definition nl : string := String (ascii_of_nat 10) EmptyString.

End PyString.
Import PyString.

(* ================================================================== *)
(** ** Python values read from provider objects *)

(** The scalar attributes of an order or an item are only ever tested for
    truthiness, compared with [None] and passed to [str].  A float, a
    [Decimal] or a [date] is therefore described by its [__bool__] and its
    [__str__]: [0.0] is [PyOther false "0.0"]. *)
Inductive pyobj : Type :=
| PyNone
| PyInt (z : Z)
| PyStr (s : string)
| PyOther (truth : bool) (repr : string).

Definition truthy (v : pyobj) : bool :=
  match v with
  | PyNone => false
  | PyInt z => negb (z =? 0)%Z
  | PyStr s => nonempty s
  | PyOther b _ => b
  end.

Definition is_not_none (v : pyobj) : bool :=
  match v with PyNone => false | _ => true end.

Definition py_str (v : pyobj) : string :=
  match v with
  | PyNone => "None"
  | PyInt z => NilZero.string_of_int (Z.to_int z)
  | PyStr s => s
  | PyOther _ r => r
  end.

(** truthiness of an [Optional[str]] and of an [Optional[int]] *)
Definition str_truthy (o : option string) : bool :=
  match o with Some s => nonempty s | None => false end.

Definition int_truthy (o : option Z) : bool :=
  match o with Some z => negb (z =? 0)%Z | None => false end.

(* ================================================================== *)
(** ** Serializable results *)

(** What the tools hand to [json.dumps].  A [dict] keeps insertion order,
    so it is an association list with unique keys.  [JOther] is an
    object that reached the result without going through [str]. *)
#[warnings="-register-all"]
Inductive json : Type :=
| JNull
| JStr (s : string)
| JInt (z : Z)
| JOther (truth : bool) (repr : string)
| JList (l : list json)
| JDict (d : list (string * json)).

Definition dict : Type := list (string * json).

Fixpoint dict_get (d : dict) (k : string) : option json :=
  match d with
  | [] => None
  | (k', v) :: rest => if (k' =? k)%string then Some v else dict_get rest k
  end.

(** [d[k] = v] *)
Fixpoint dict_set (d : dict) (k : string) (v : json) : dict :=
  match d with
  | [] => [(k, v)]
  | (k', v') :: rest =>
      if (k' =? k)%string then (k, v) :: rest else (k', v') :: dict_set rest k v
  end.

Definition keys (d : dict) : list string := map fst d.

(** an attribute put into the result as it is, without [str] *)
Definition json_of_raw (v : pyobj) : json :=
  match v with
  | PyNone => JNull
  | PyInt z => JInt z
  | PyStr s => JStr s
  | PyOther b r => JOther b r
  end.

(* ================================================================== *)
(** ** Provider objects *)

(** The attributes are whatever the provider put there: the code reads
    them without checking their type.  [seller_name], [name] and
    [address] hold [PyNone] when the attribute is missing
    ([getattr(..., None)]). *)
Record Seller := { seller_name : pyobj }.

Record Recipient := { name : pyobj; address : pyobj }.

(** An [Item].  [seller = None] stands for a missing or falsy attribute,
    [condition = PyNone] for a missing or [None] one. *)
Record Item := {
  title : pyobj;
  price : pyobj;
  quantity : pyobj;
  link : pyobj;
  seller : option Seller;
  condition : pyobj
}.

(** An [Order].  The fourteen optional attributes hold [PyNone] when the
    attribute is missing or [None] ([getattr(order, field, None)] merges
    the two); [recipient = None] and [items = []] stand for a missing or
    falsy attribute. *)
Record Order := {
  order_number : pyobj;
  order_placed_date : pyobj;
  grand_total : pyobj;
  subtotal : pyobj;
  shipping_total : pyobj;
  estimated_tax : pyobj;
  total_before_tax : pyobj;
  refund_total : pyobj;
  promotion_applied : pyobj;
  coupon_savings : pyobj;
  subscription_discount : pyobj;
  multibuy_discount : pyobj;
  amazon_discount : pyobj;
  reward_points : pyobj;
  gift_card : pyobj;
  payment_method : pyobj;
  payment_method_last_4 : pyobj;
  recipient : option Recipient;
  items : list Item
}.

(** [getattr(order, field, None)] on the optional attributes *)
Definition getattr (order : Order) (field : string) : pyobj :=
  if field =? "subtotal" then subtotal order
  else if field =? "shipping_total" then shipping_total order
  else if field =? "estimated_tax" then estimated_tax order
  else if field =? "total_before_tax" then total_before_tax order
  else if field =? "refund_total" then refund_total order
  else if field =? "promotion_applied" then promotion_applied order
  else if field =? "coupon_savings" then coupon_savings order
  else if field =? "subscription_discount" then subscription_discount order
  else if field =? "multibuy_discount" then multibuy_discount order
  else if field =? "amazon_discount" then amazon_discount order
  else if field =? "reward_points" then reward_points order
  else if field =? "gift_card" then gift_card order
  else if field =? "payment_method" then payment_method order
  else if field =? "payment_method_last_4" then payment_method_last_4 order
  else PyNone.

(* ================================================================== *)
(** ** Serialization: [item_to_dict] and [order_to_dict] *)

Definition item_to_dict (item : Item) : dict :=
  [ ("title", json_of_raw (title item));
    ("price", if truthy (price item) then JStr (py_str (price item)) else JNull);
    ("quantity", json_of_raw (quantity item));
    ("link", json_of_raw (link item));
    ("seller", match seller item with
               | Some s => json_of_raw (seller_name s)
               | None => JNull
               end);
    ("condition", json_of_raw (condition item)) ].

Definition optional_fields : list string :=
  [ "subtotal"; "shipping_total"; "estimated_tax"; "total_before_tax";
    "refund_total"; "promotion_applied"; "coupon_savings";
    "subscription_discount"; "multibuy_discount"; "amazon_discount";
    "reward_points"; "gift_card"; "payment_method"; "payment_method_last_4" ].

(** one turn of [for field in optional_fields] *)
Definition add_optional (order : Order) (result : dict) (field : string) : dict :=
  let value := getattr order field in
  if is_not_none value then dict_set result field (JStr (py_str value))
  else result.

Definition base_dict (order : Order) : dict :=
  [ ("order_number", json_of_raw (order_number order));
    ("order_placed_date",
      if truthy (order_placed_date order)
      then JStr (py_str (order_placed_date order)) else JNull);
    ("grand_total",
      if truthy (grand_total order)
      then JStr (py_str (grand_total order)) else JNull) ].

Definition add_recipient (order : Order) (result : dict) : dict :=
  match recipient order with
  | Some r =>
      dict_set result "recipient"
        (JDict [("name", json_of_raw (name r));
                ("address", json_of_raw (address r))])
  | None => result
  end.

Definition add_items (order : Order) (result : dict) : dict :=
  match items order with
  | [] => result
  | its => dict_set result "items" (JList (map (fun item => JDict (item_to_dict item)) its))
  end.

Definition order_to_dict (order : Order) : dict :=
  let result := base_dict order in
  let result := fold_left (add_optional order) optional_fields result in
  let result := add_recipient order result in
  add_items order result.

(* ================================================================== *)
(** ** Exceptions and results *)

(** The classes the module tells apart: its own [OTPRequiredError], the
    [ValueError] it raises itself, any other [Exception] (the
    provider's, an [AttributeError], a [TypeError]), and what is raised
    outside [Exception] ([KeyboardInterrupt], [SystemExit],
    [asyncio.CancelledError]), which [except Exception] does not catch.
    [exn_msg] is [str(e)]. *)
Inductive exn_class : Type :=
| OTPRequiredError
| ValueError
| OtherException
| BaseExceptionOnly.

Record exn := mk_exn { exn_cls : exn_class; exn_msg : string }.

(** [isinstance(e, OTPRequiredError)] *)
Definition is_otp_required (e : exn) : bool :=
  match exn_cls e with OTPRequiredError => true | _ => false end.

(** [isinstance(e, Exception)] *)
Definition is_exception (e : exn) : bool :=
  match exn_cls e with BaseExceptionOnly => false | _ => true end.

Inductive result (A : Type) : Type :=
| Ok (a : A)
| Raise (e : exn).
Arguments Ok {A} a.
Arguments Raise {A} e.

(* ================================================================== *)
(** ** The prompt handler [MCPIOHandler] *)

Record MCPIOHandler := {
  otp_code : option string;
  otp_requested : bool
}.

(** [MCPIOHandler.__init__] *)
Definition new_io_handler (otp_code : option string) : MCPIOHandler :=
  {| otp_code := otp_code; otp_requested := false |}.

(** ["otp" in msg.lower() or "code" in msg.lower() or
    "verification" in msg.lower()].  The three words are ASCII, and
    [str.lower] gives ASCII letters only from ASCII letters, from U+0130
    (an [i] followed by U+0307) and from U+212A (a [k]), neither of
    which can be part of an occurrence of one of the words; so the test
    is decided by the ASCII lower-casing of the message. *)
Definition is_otp_prompt (msg : string) : bool :=
  contains "otp" (ascii_lower msg)
  || contains "code" (ascii_lower msg)
  || contains "verification" (ascii_lower msg).

(** [MCPIOHandler.prompt]: the answer or the exception, and the handler
    after the call (the flag [otp_requested] is set before anything is
    raised). *)
Definition prompt (self : MCPIOHandler) (msg : string)
  : result string * MCPIOHandler :=
  if is_otp_prompt msg then
    let self' := {| otp_code := otp_code self; otp_requested := true |} in
    match otp_code self with
    | Some c =>
        if nonempty c then (Ok c, self')
        else (Raise (mk_exn OTPRequiredError "OTP_REQUIRED"), self')
    | None => (Raise (mk_exn OTPRequiredError "OTP_REQUIRED"), self')
    end
  else
    (Raise (mk_exn ValueError ("Interactive prompt required: " ++ msg)), self).

(** [MCPIOHandler.echo] does nothing. *)
Definition echo (self : MCPIOHandler) (msg : string) : MCPIOHandler := self.

(* ================================================================== *)
(** ** The external world *)

(** What [AmazonSession.login()] does as seen from this module: it ends
    normally, raises, writes through [io.echo], or asks through
    [io.prompt] and goes on according to the answer; like any Python
    caller it may also catch what the prompt raised ([on_raise]), a
    provider that does not passes the exception on with [Fails]. *)
Inductive LoginScript : Type :=
| Succeeds
| Fails (e : exn)
| Echoes (msg : string) (next : LoginScript)
| Prompts (msg : string) (on_answer : string -> LoginScript)
          (on_raise : exn -> LoginScript).

Fixpoint run_login (s : LoginScript) (io : MCPIOHandler)
  : result unit * MCPIOHandler :=
  match s with
  | Succeeds => (Ok tt, io)
  | Fails e => (Raise e, io)
  | Echoes msg next => run_login next (echo io msg)
  | Prompts msg on_answer on_raise =>
      match prompt io msg with
      | (Ok answer, io') => run_login (on_answer answer) io'
      | (Raise e, io') => run_login (on_raise e) io'
      end
  end.

(** [AmazonSession(username, password, otp_secret_key=..., io=..., debug=...)];
    the handler is kept apart because it is mutated during [login]. *)
Record AmazonSession := {
  username : string;
  password : string;
  otp_secret_key : option string;
  debug_flag : bool
}.

(** [AmazonOrders(session)] *)
Record AmazonOrders := { amazon_session : AmazonSession }.

(** keyword arguments of [client.get_order_history] *)
Record Kwargs := {
  kw_full_details : bool;
  kw_time_filter : option string;
  kw_year : option Z
}.

(** [str_lower] is [str.lower()]; [no_lower_text v] is the text of the
    [AttributeError] that [v.lower()] raises when [v] is not a [str];
    [json_dumps] is [json.dumps(..., indent=2)], which raises a
    [TypeError] on what it cannot write. *)
Record Externals := {
  environ_get : string -> option string;
  now_year : Z;
  str_lower : string -> string;
  no_lower_text : pyobj -> string;
  json_dumps : json -> result string;
  format_exc : exn -> string;
  session_login : AmazonSession -> LoginScript;
  get_order_history : AmazonOrders -> Kwargs -> result (list Order);
  get_order : AmazonOrders -> string -> result Order
}.

(** The module's globals, with a counter of the calls made to the
    provider's [login()]. *)
Record Globals := {
  _session : option AmazonSession;
  _orders_client : option AmazonOrders;
  _pending_otp_request : bool;
  login_calls : nat
}.

Definition initial : Globals :=
  {| _session := None; _orders_client := None;
     _pending_otp_request := false; login_calls := 0 |}.

(** A Python function that reads and writes the globals and may raise. *)
Definition M (A : Type) : Type := Globals -> result A * Globals.

(* ================================================================== *)
(** ** [get_orders_client] *)

Definition set_or_not (o : option string) : string :=
  if str_truthy o then "set" else "NOT SET".

Definition credentials_message (username password : option string) : string :=
  "AMAZON_USERNAME and AMAZON_PASSWORD environment variables must be set. "
  ++ "Found: username=" ++ set_or_not username
  ++ ", password=" ++ set_or_not password.

Definition get_orders_client (X : Externals)
    (otp_code : option string) (debug : bool) : M AmazonOrders :=
  fun g =>
    let fast :=
      match _orders_client g with
      | Some client => if negb (_pending_otp_request g) then Some client else None
      | None => None
      end in
    match fast with
    | Some client => (Ok client, g)
    | None =>
        let username := environ_get X "AMAZON_USERNAME" in
        let password := environ_get X "AMAZON_PASSWORD" in
        let otp_secret := environ_get X "AMAZON_OTP_SECRET" in
        match username, password with
        | Some u, Some p =>
            if nonempty u && nonempty p then
              let io_handler := new_io_handler otp_code in
              let session :=
                {| username := u; password := p;
                   otp_secret_key := otp_secret; debug_flag := debug |} in
              let calls := S (login_calls g) in
              match run_login (session_login X session) io_handler with
              | (Ok _, _) =>
                  let client := {| amazon_session := session |} in
                  (Ok client,
                   {| _session := Some session; _orders_client := Some client;
                      _pending_otp_request := false; login_calls := calls |})
              | (Raise e, io_handler') =>
                  let pending :=
                    if is_otp_required e then true
                    else if is_exception e && otp_requested io_handler' then true
                    else _pending_otp_request g in
                  (Raise e,
                   {| _session := Some session;
                      _orders_client := _orders_client g;
                      _pending_otp_request := pending; login_calls := calls |})
              end
            else (Raise (mk_exn ValueError (credentials_message username password)), g)
        | _, _ => (Raise (mk_exn ValueError (credentials_message username password)), g)
        end
    end.

(* ================================================================== *)
(** ** [amazon_login] *)

Definition login_ok : string := "Successfully logged in to Amazon.".

Definition otp_required_text : string :=
  "OTP_REQUIRED: Amazon 2FA is enabled and requires a one-time password. "
  ++ "ASK THE USER for their current 6-digit OTP code from their authenticator app, "
  ++ "then call amazon_login again with the otp_code parameter.".

Definition auth_failed_text (otp_code : option string) (detail : string) : string :=
  "AUTH_FAILED: Could not authenticate with Amazon." ++ nl
  ++ "OTP code provided: " ++ (if str_truthy otp_code then "yes" else "no") ++ nl
  ++ "Possible causes:" ++ nl
  ++ "1. Invalid username/password in environment variables" ++ nl
  ++ "2. Amazon is blocking automated login (CAPTCHA)" ++ nl
  ++ "3. 2FA is required - ASK THE USER for their current 6-digit OTP code" ++ nl
  ++ nl ++ "Debug info:" ++ nl ++ detail.

Definition login_failed_text (error_msg detail : string) : string :=
  "Login failed: " ++ error_msg ++ nl ++ nl ++ "Traceback:" ++ nl ++ detail.

Definition amazon_login (X : Externals)
    (otp_code : option string) (debug : bool) : M string :=
  fun g =>
    let g0 :=
      {| _session := None; _orders_client := None;
         _pending_otp_request := _pending_otp_request g;
         login_calls := login_calls g |} in
    match get_orders_client X otp_code debug g0 with
    | (Ok _, g1) => (Ok login_ok, g1)
    | (Raise e, g1) =>
        if is_otp_required e then
          (Ok otp_required_text,
           {| _session := _session g1; _orders_client := _orders_client g1;
              _pending_otp_request := true; login_calls := login_calls g1 |})
        else if is_exception e then
          let error_msg := exn_msg e in
          let tb := format_exc X e in
          if contains "Authentication attempts exhausted" error_msg then
            (Ok (auth_failed_text otp_code (if debug then tb else error_msg)), g1)
          else
            (Ok (login_failed_text error_msg (if debug then tb else "")), g1)
        else (Raise e, g1)
    end.

(* ================================================================== *)
(** ** The query tools *)

Definition not_logged_in_text : string :=
  "NOT_LOGGED_IN: You must call amazon_login first. "
  ++ "ASK THE USER for their current 6-digit OTP code from their authenticator app, "
  ++ "then call amazon_login with the otp_code parameter.".

Definition auth_failed_hint : string :=
  "AUTH_FAILED: Call amazon_login first. If 2FA is enabled, "
  ++ "ASK THE USER for their current 6-digit OTP code from their authenticator app.".

Definition _handle_auth_error (e : exn) : string :=
  let error_msg := exn_msg e in
  if contains "OTP_REQUIRED" error_msg || is_otp_required e then
    not_logged_in_text
  else if contains "AMAZON_USERNAME" error_msg
          || contains "AMAZON_PASSWORD" error_msg then
    "CONFIG_ERROR: " ++ error_msg
  else if contains "Authentication attempts exhausted" error_msg then
    auth_failed_hint
  else "Error: " ++ error_msg.

(** The keyword arguments built by [amazon_get_order_history] and
    [amazon_search_orders]: the filter when truthy, else the year when
    truthy, else the current year. *)
Definition make_kwargs (X : Externals) (full_details : bool)
    (time_filter : option string) (year : option Z) : Kwargs :=
  if str_truthy time_filter then
    {| kw_full_details := full_details; kw_time_filter := time_filter;
       kw_year := None |}
  else if int_truthy year then
    {| kw_full_details := full_details; kw_time_filter := None;
       kw_year := year |}
  else
    {| kw_full_details := full_details; kw_time_filter := None;
       kw_year := Some (now_year X) |}.

(** [json.dumps([order_to_dict(order) for order in orders], indent=2)] *)
Definition dump_orders (X : Externals) (orders : list Order) : result string :=
  json_dumps X (JList (map (fun order => JDict (order_to_dict order)) orders)).

Definition amazon_get_order_history (X : Externals)
    (year : option Z) (time_filter : option string) (full_details : bool)
  : M string :=
  fun g =>
    match get_orders_client X None false g with
    | (Raise e, g1) =>
        if is_exception e then (Ok (_handle_auth_error e), g1) else (Raise e, g1)
    | (Ok client, g1) =>
        let kwargs := make_kwargs X full_details time_filter year in
        match get_order_history X client kwargs with
        | Raise e => (Raise e, g1)
        | Ok orders => (dump_orders X orders, g1)
        end
    end.

Definition amazon_get_order (X : Externals) (order_id : string) : M string :=
  fun g =>
    match get_orders_client X None false g with
    | (Raise e, g1) =>
        if is_exception e then (Ok (_handle_auth_error e), g1) else (Raise e, g1)
    | (Ok client, g1) =>
        match get_order X client order_id with
        | Raise e => (Raise e, g1)
        | Ok order => (json_dumps X (JDict (order_to_dict order)), g1)
        end
    end.

(** [item.title and search_lower in item.title.lower()]: a falsy title
    is passed over; a [str] is lower-cased and searched; any other
    truthy value has no [lower] and the call raises. *)
Definition title_matches (X : Externals) (search_lower : string) (item : Item)
  : result bool :=
  match title item with
  | PyStr t => Ok (nonempty t && contains search_lower (str_lower X t))
  | v =>
      if truthy v then Raise (mk_exn OtherException (no_lower_text X v))
      else Ok false
  end.

(** the inner [for item in order.items: ... break] *)
Fixpoint scan_items (X : Externals) (search_lower : string) (its : list Item)
  : result bool :=
  match its with
  | [] => Ok false
  | item :: rest =>
      match title_matches X search_lower item with
      | Raise e => Raise e
      | Ok true => Ok true
      | Ok false => scan_items X search_lower rest
      end
  end.

(** the outer [for order in orders], appending to [matching_orders] *)
Fixpoint scan_orders_from (X : Externals) (search_lower : string)
    (orders matching_orders : list Order) : result (list Order) :=
  match orders with
  | [] => Ok matching_orders
  | order :: rest =>
      match items order with
      | [] => scan_orders_from X search_lower rest matching_orders
      | its =>
          match scan_items X search_lower its with
          | Raise e => Raise e
          | Ok true =>
              scan_orders_from X search_lower rest (matching_orders ++ [order])
          | Ok false => scan_orders_from X search_lower rest matching_orders
          end
      end
  end.

Definition scan_orders (X : Externals) (search_lower : string)
    (orders : list Order) : result (list Order) :=
  scan_orders_from X search_lower orders [].

Definition amazon_search_orders (X : Externals)
    (search_term : string) (year : option Z) (time_filter : option string)
  : M string :=
  fun g =>
    match get_orders_client X None false g with
    | (Raise e, g1) =>
        if is_exception e then (Ok (_handle_auth_error e), g1) else (Raise e, g1)
    | (Ok client, g1) =>
        let kwargs := make_kwargs X true time_filter year in
        match get_order_history X client kwargs with
        | Raise e => (Raise e, g1)
        | Ok orders =>
            let search_lower := str_lower X search_term in
            match scan_orders X search_lower orders with
            | Raise e => (Raise e, g1)
            | Ok matching_orders => (dump_orders X matching_orders, g1)
            end
        end
    end.

(** A call to one of the three query tools, and a run of several calls
    one after the other on the same globals. *)
Inductive Query : Type :=
| GetOrderHistory (year : option Z) (time_filter : option string)
                  (full_details : bool)
| GetOrder (order_id : string)
| SearchOrders (search_term : string) (year : option Z)
               (time_filter : option string).

Definition run_query (X : Externals) (q : Query) : M string :=
  match q with
  | GetOrderHistory year time_filter full_details =>
      amazon_get_order_history X year time_filter full_details
  | GetOrder order_id => amazon_get_order X order_id
  | SearchOrders search_term year time_filter =>
      amazon_search_orders X search_term year time_filter
  end.

Fixpoint run_queries (X : Externals) (qs : list Query) (g : Globals)
  : list (result string) * Globals :=
  match qs with
  | [] => ([], g)
  | q :: rest =>
      let (r, g1) := run_query X q g in
      let (rs, g2) := run_queries X rest g1 in
      (r :: rs, g2)
  end.

(* ================================================================== *)
(** ** Names for what [get_orders_client] reads and builds *)

(** both credentials are in the environment and truthy *)
Definition credentials_set (X : Externals) (u p : string) : Prop :=
  environ_get X "AMAZON_USERNAME" = Some u /\ nonempty u = true
  /\ environ_get X "AMAZON_PASSWORD" = Some p /\ nonempty p = true.

(** one of them is missing or empty *)
Definition credentials_missing (X : Externals) : Prop :=
  str_truthy (environ_get X "AMAZON_USERNAME") = false
  \/ str_truthy (environ_get X "AMAZON_PASSWORD") = false.

(** the [AmazonSession] built from the environment *)
Definition session_of (X : Externals) (u p : string) (debug : bool)
  : AmazonSession :=
  {| username := u; password := p;
     otp_secret_key := environ_get X "AMAZON_OTP_SECRET";
     debug_flag := debug |}.

(** a provider call that, after any informational output, asks an OTP
    question and does not catch what the handler raises *)
Inductive asks_for_otp : LoginScript -> Prop :=
| asks_now (msg : string) (on_answer : string -> LoginScript) :
    is_otp_prompt msg = true -> asks_for_otp (Prompts msg on_answer Fails)
| asks_after_echo (msg : string) (next : LoginScript) :
    asks_for_otp next -> asks_for_otp (Echoes msg next).

(** the globals after a login attempt on session [s]: no client unless
    the attempt succeeded, one more call to the provider's [login()] *)
Definition after_attempt (g : Globals) (s : AmazonSession)
    (client : option AmazonOrders) (pending : bool) : Globals :=
  {| _session := Some s; _orders_client := client;
     _pending_otp_request := pending; login_calls := S (login_calls g) |}.

(** what [amazon_login] starts from: session and client dropped *)
Definition reset (g : Globals) : Globals :=
  {| _session := None; _orders_client := None;
     _pending_otp_request := _pending_otp_request g;
     login_calls := login_calls g |}.

(* ================================================================== *)
(** ** What the claims are compared with *)


(** An item that the search finds: its title is a [str], not empty, and
    once lower-cased contains the lower-cased term. *)
Definition title_hit (X : Externals) (search_lower : string) (item : Item)
  : bool :=
  match title item with
  | PyStr t => nonempty t && contains search_lower (str_lower X t)
  | _ => false
  end.

(** a title the search can read: a [str], or something falsy *)
Definition plain_title (item : Item) : bool :=
  match title item with
  | PyStr _ => true
  | v => negb (truthy v)
  end.

Definition plain_titles (orders : list Order) : Prop :=
  forall order item, In order orders -> In item (items order) ->
                     plain_title item = true.

(** what is known of [str.lower] without its tables: on ASCII text it is
    the lower-casing of the ASCII letters *)
Definition lower_on_ascii (X : Externals) : Prop :=
  forall s, is_ascii s = true -> str_lower X s = ascii_lower s.

(** An order whose optional attributes are all absent, in the order and
    in each of its items. *)
Definition item_required_only (item : Item) : bool :=
  negb (is_not_none (price item))
  && negb (is_not_none (link item))
  && match seller item with None => true | Some _ => false end
  && negb (is_not_none (condition item)).

Definition order_required_only (order : Order) : bool :=
  forallb (fun field => negb (is_not_none (getattr order field))) optional_fields
  && match recipient order with None => true | Some _ => false end
  && forallb item_required_only (items order).

(** Does a serialized value hold a [null] anywhere? *)
Fixpoint has_null (j : json) : bool :=
  match j with
  | JNull => true
  | JStr _ => false
  | JInt _ => false
  | JOther _ _ => false
  | JList l => existsb has_null l
  | JDict d => existsb (fun kv : string * json => has_null (snd kv)) d
  end.

(* ================================================================== *)
(** ** Sample data *)

Module Samples.

Local Open Scope string_scope.

(** a compact serializer standing in for [json.dumps] *)
Fixpoint show_json (j : json) : string :=
  match j with
  | JNull => "null"
  | JStr s => "'" ++ s ++ "'"
  | JInt z => NilZero.string_of_int (Z.to_int z)
  | JOther _ r => r
  | JList l =>
      "[" ++ (fix go (l : list json) : string :=
                match l with
                | [] => ""
                | x :: r => show_json x ++ ";" ++ go r
                end) l ++ "]"
  | JDict d =>
      "{" ++ (fix go (d : list (string * json)) : string :=
                match d with
                | [] => ""
                | (k, v) :: r => k ++ ":" ++ show_json v ++ ";" ++ go r
                end) d ++ "}"
  end.

(** a stand-in for [str.lower]: the ASCII letters, and the capital
    letters of the Latin-1 supplement (U+00C0 to U+00DE without U+00D7),
    which UTF-8 writes as the byte 195 and a byte from 128 to 158 *)
Definition latin1_capital (c d : ascii) : bool :=
  (nat_of_ascii c =? 195)%nat
  && (128 <=? nat_of_ascii d)%nat && (nat_of_ascii d <=? 158)%nat
  && negb (nat_of_ascii d =? 151)%nat.

Fixpoint sample_lower (s : string) : string :=
  match s with
  | EmptyString => EmptyString
  | String c rest =>
      match rest with
      | String d rest' =>
          if latin1_capital c d
          then String c (String (ascii_of_nat (nat_of_ascii d + 32))
                                (sample_lower rest'))
          else String (ascii_lower_char c) (sample_lower rest)
      | EmptyString => String (ascii_lower_char c) EmptyString
      end
  end.

(** the message of the [AttributeError] for a title without [lower] *)
Definition sample_no_lower (v : pyobj) : string :=
  match v with
  | PyInt _ => "'int' object has no attribute 'lower'"
  | _ => "object has no attribute 'lower'"
  end.

Definition sample_dumps (j : json) : result string := Ok (show_json j).

Definition item_titled (t : string) : Item :=
  {| title := PyStr t; price := PyNone; quantity := PyInt 1;
     link := PyNone; seller := None; condition := PyNone |}.

Definition full_item : Item :=
  {| title := PyStr "USB Cable"; price := PyOther true "9.99";
     quantity := PyInt 2; link := PyStr "/dp/B000";
     seller := Some {| seller_name := PyStr "Acme" |};
     condition := PyStr "New" |}.

Definition free_item : Item :=
  {| title := PyStr "Sticker"; price := PyOther false "0.0";
     quantity := PyInt 1; link := PyNone; seller := None;
     condition := PyNone |}.

(** only the required attributes, and the given items *)
Definition bare_order (number : string) (its : list Item) : Order :=
  {| order_number := PyStr number;
     order_placed_date := PyOther true "2024-03-01";
     grand_total := PyOther true "19.99";
     subtotal := PyNone; shipping_total := PyNone; estimated_tax := PyNone;
     total_before_tax := PyNone; refund_total := PyNone;
     promotion_applied := PyNone; coupon_savings := PyNone;
     subscription_discount := PyNone; multibuy_discount := PyNone;
     amazon_discount := PyNone; reward_points := PyNone;
     gift_card := PyNone; payment_method := PyNone;
     payment_method_last_4 := PyNone;
     recipient := None; items := its |}.

(** every optional attribute set *)
Definition full_order : Order :=
  {| order_number := PyStr "111-1234567-1234567";
     order_placed_date := PyOther true "2024-03-01";
     grand_total := PyOther true "19.99";
     subtotal := PyOther true "17.49"; shipping_total := PyOther false "0.0";
     estimated_tax := PyOther true "2.5";
     total_before_tax := PyOther true "17.49";
     refund_total := PyInt 0; promotion_applied := PyOther true "-1.0";
     coupon_savings := PyOther false "0.0";
     subscription_discount := PyOther false "0.0";
     multibuy_discount := PyOther false "0.0";
     amazon_discount := PyOther false "0.0";
     reward_points := PyInt 0; gift_card := PyOther false "0.0";
     payment_method := PyStr "Visa"; payment_method_last_4 := PyInt 1234;
     recipient := Some {| name := PyStr "A. Buyer"; address := PyNone |};
     items := [full_item] |}.

(** a free order: total and one optional amount are zero *)
Definition free_order : Order :=
  {| order_number := PyStr "222-0000000-0000000";
     order_placed_date := PyOther true "2024-04-01";
     grand_total := PyInt 0;
     subtotal := PyInt 0; shipping_total := PyNone; estimated_tax := PyNone;
     total_before_tax := PyNone; refund_total := PyNone;
     promotion_applied := PyNone; coupon_savings := PyNone;
     subscription_discount := PyNone; multibuy_discount := PyNone;
     amazon_discount := PyNone; reward_points := PyNone;
     gift_card := PyNone; payment_method := PyNone;
     payment_method_last_4 := PyNone;
     recipient := None; items := [free_item] |}.

Definition fixture : list Order :=
  [ bare_order "A-1" [item_titled "USB Cable"];
    bare_order "A-2" [item_titled "Desk Lamp"; item_titled "Wireless Headphones"];
    bare_order "A-3" [] ].

Definition env_full (k : string) : option string :=
  if k =? "AMAZON_USERNAME" then Some "user@example.com"
  else if k =? "AMAZON_PASSWORD" then Some "hunter2"
  else None.

Definition env_no_password (k : string) : option string :=
  if k =? "AMAZON_USERNAME" then Some "user@example.com" else None.

Definition exhausted : exn :=
  mk_exn OtherException "Authentication attempts exhausted".

Definition boom : exn := mk_exn OtherException "503 Service Unavailable".

(** a provider whose login needs nothing and whose queries answer *)
Definition X_plain : Externals :=
  {| environ_get := env_full; now_year := 2026%Z;
     str_lower := sample_lower; no_lower_text := sample_no_lower;
     json_dumps := sample_dumps;
     format_exc := fun e => "Traceback (most recent call last): " ++ exn_msg e;
     session_login := fun _ => Succeeds;
     get_order_history := fun _ _ => Ok fixture;
     get_order := fun _ number => Ok (bare_order number []) |}.

(** [KeyboardInterrupt()], whose [str] is empty *)
Definition interrupted : exn := mk_exn BaseExceptionOnly "".

(** a provider whose login is interrupted from outside *)
Definition X_interrupted : Externals :=
  {| environ_get := env_full; now_year := 2026%Z;
     str_lower := sample_lower; no_lower_text := sample_no_lower;
     json_dumps := sample_dumps;
     format_exc := fun e => exn_msg e;
     session_login := fun _ => Fails interrupted;
     get_order_history := fun _ _ => Ok fixture;
     get_order := fun _ number => Ok (bare_order number []) |}.





(** a provider with 2FA: it asks for the code and lets the handler's
    exception through; a code that is given is accepted *)
Definition X_2fa : Externals :=
  {| environ_get := env_full; now_year := 2026%Z;
     str_lower := sample_lower; no_lower_text := sample_no_lower;
     json_dumps := sample_dumps;
     format_exc := fun e => exn_msg e;
     session_login :=
       fun _ => Echoes "Two-step verification is on"
               (Prompts "Enter the OTP code" (fun _ => Succeeds) Fails);
     get_order_history := fun _ _ => Ok fixture;
     get_order := fun _ number => Ok (bare_order number []) |}.


(** the password is not configured *)
Definition X_no_password : Externals :=
  {| environ_get := env_no_password; now_year := 2026%Z;
     str_lower := sample_lower; no_lower_text := sample_no_lower;
     json_dumps := sample_dumps;
     format_exc := fun e => exn_msg e;
     session_login := fun _ => Succeeds;
     get_order_history := fun _ _ => Ok fixture;
     get_order := fun _ number => Ok (bare_order number []) |}.

(** login works, the order pages do not *)
Definition X_down : Externals :=
  {| environ_get := env_full; now_year := 2026%Z;
     str_lower := sample_lower; no_lower_text := sample_no_lower;
     json_dumps := sample_dumps;
     format_exc := fun e => exn_msg e;
     session_login := fun _ => Succeeds;
     get_order_history := fun _ _ => Raise boom;
     get_order := fun _ _ => Raise boom |}.


Definition a_session : AmazonSession :=
  {| username := "user@example.com"; password := "hunter2";
     otp_secret_key := None; debug_flag := false |}.

(** the globals after a successful login *)
Definition logged_in : Globals :=
  {| _session := Some a_session;
     _orders_client := Some {| amazon_session := a_session |};
     _pending_otp_request := false; login_calls := 1 |}.

(** the provider cannot be reached at all *)
Definition X_offline : Externals :=
{| environ_get := env_full; now_year := 2026%Z;
   str_lower := sample_lower; no_lower_text := sample_no_lower;
     json_dumps := sample_dumps;
   format_exc := fun e => exn_msg e;
   session_login := fun _ => Fails boom;
   get_order_history := fun _ _ => Ok fixture;
   get_order := fun _ number => Ok (bare_order number []) |}.

(** a provider whose only good code is 123456 *)
Definition X_code : Externals :=
{| environ_get := env_full; now_year := 2026%Z;
   str_lower := sample_lower; no_lower_text := sample_no_lower;
     json_dumps := sample_dumps;
   format_exc := fun e => exn_msg e;
   session_login :=
     fun _ => Prompts "Enter the OTP code"
                      (fun answer => if (answer =? "123456")%string
                                     then Succeeds else Fails exhausted)
                      Fails;
   get_order_history := fun _ _ => Ok fixture;
   get_order := fun _ number => Ok (bare_order number []) |}.

(** the globals after a login that was answered with [OTP_REQUIRED] *)
Definition awaiting_otp : Globals :=
{| _session := Some a_session; _orders_client := None;
   _pending_otp_request := true; login_calls := 1 |}.

End Samples.

(* ================================================================== *)
(** ** Sessions of tool calls *)

(** A call to any of the four tools, and a run of calls on the same
    globals, as the server makes them one after the other. *)
Inductive Call : Type :=
| Login (otp_code : option string) (debug : bool)
| Ask (q : Query).

Definition run_call (X : Externals) (c : Call) : M string :=
  match c with
  | Login otp_code debug => amazon_login X otp_code debug
  | Ask q => run_query X q
  end.

Fixpoint run_calls (X : Externals) (cs : list Call) (g : Globals)
  : list (result string) * Globals :=
  match cs with
  | [] => ([], g)
  | c :: rest =>
      let (r, g1) := run_call X c g in
      let (rs, g2) := run_calls X rest g1 in
      (r :: rs, g2)
  end.

(** What holds of the globals between calls: a cached client belongs to
    the stored session, and no OTP is pending while there is one. *)
Definition client_consistent (g : Globals) : Prop :=
  forall client,
    _orders_client g = Some client ->
    _pending_otp_request g = false
    /\ _session g = Some (amazon_session client).

(** the same world with another [traceback.format_exc] *)
Definition with_format_exc (X : Externals) (f : exn -> string) : Externals :=
  {| environ_get := environ_get X; now_year := now_year X;
     str_lower := str_lower X; no_lower_text := no_lower_text X;
     json_dumps := json_dumps X; format_exc := f;
     session_login := session_login X;
     get_order_history := get_order_history X;
     get_order := get_order X |}.

(** a provider call with its informational output taken out *)
Fixpoint strip_echoes (s : LoginScript) : LoginScript :=
  match s with
  | Succeeds => Succeeds
  | Fails e => Fails e
  | Echoes _ next => strip_echoes next
  | Prompts msg on_answer on_raise =>
      Prompts msg (fun answer => strip_echoes (on_answer answer))
              (fun e => strip_echoes (on_raise e))
  end.

(** the keys a serialized order is expected to have, in their order *)
Definition expected_keys (order : Order) : list string :=
  ["order_number"; "order_placed_date"; "grand_total"]
    ++ filter (fun field => is_not_none (getattr order field)) optional_fields
    ++ match recipient order with Some _ => ["recipient"] | None => [] end
    ++ match items order with [] => [] | _ :: _ => ["items"] end.

(** [l1] is [l2] with some elements left out *)
Inductive subsequence {A : Type} : list A -> list A -> Prop :=
| subsequence_nil : subsequence [] []
| subsequence_keep (x : A) (l1 l2 : list A) :
    subsequence l1 l2 -> subsequence (x :: l1) (x :: l2)
| subsequence_drop (x : A) (l1 l2 : list A) :
    subsequence l1 l2 -> subsequence l1 (x :: l2).

(** [tag] is how the text begins *)
Definition starts_with (tag text : string) : bool := String.prefix tag text.

(* ================================================================== *)
(** * Properties *)

(** ** Strings *)

Section StringFacts.

Local Open Scope string_scope.

Lemma prefix_app (n h : string) :
  String.prefix n h = true <-> exists post, h = n ++ post.
Proof.
  revert h; induction n as [|c n IH]; intros h.
  - split; [intros _; now exists h | intros _; now destruct h].
  - destruct h as [|c' h]; simpl.
    + split; [discriminate | intros [post H]; discriminate].
    + destruct (Ascii.ascii_dec c c') as [->|Hne].
      * rewrite IH. split; intros [post H]; exists post.
        -- now rewrite H.
        -- now inversion H.
      * split; [discriminate | intros [post H]; inversion H; congruence].
Qed.

(** [contains] is Python's [in]: the needle occurs somewhere. *)
Lemma contains_spec (n h : string) :
  contains n h = true <-> exists pre post, h = pre ++ n ++ post.
Proof.
  induction h as [|c h IH].
  - destruct n as [|c n]; simpl.
    + split; [intros _; now exists "", "" | reflexivity].
    + split; [discriminate|].
      intros [pre [post H]]. destruct pre; discriminate.
  - cbn [contains]. rewrite orb_true_iff, prefix_app, IH. split.
    + intros [[post H] | [pre [post H]]].
      * now exists "", post.
      * exists (String c pre), post. simpl. now rewrite H.
    + intros [pre [post H]]. destruct pre as [|c' pre]; simpl in H.
      * left. now exists post.
      * right. inversion H. now exists pre, post.
Qed.

Lemma nonempty_true (s : string) : nonempty s = true <-> s <> "".
Proof. destruct s; simpl; split; congruence. Qed.

End StringFacts.

(** ** Dictionaries *)

Lemma dict_get_set (d : dict) (k k' : string) (v : json) :
  dict_get (dict_set d k v) k' =
  if (k =? k')%string then Some v else dict_get d k'.
Proof.
  induction d as [|[k0 v0] d IH]; simpl.
  - reflexivity.
  - destruct (String.eqb_spec k0 k) as [->|Hne]; simpl.
    + destruct (k =? k')%string; reflexivity.
    + rewrite IH. destruct (String.eqb_spec k0 k') as [->|Hne'].
      * destruct (String.eqb_spec k k'); [congruence | reflexivity].
      * reflexivity.
Qed.

Lemma keys_set_fresh (d : dict) (k : string) (v : json) :
  dict_get d k = None -> keys (dict_set d k v) = keys d ++ [k].
Proof.
  unfold keys. induction d as [|[k0 v0] d IH]; simpl; intros H.
  - reflexivity.
  - destruct (k0 =? k)%string; [discriminate|]. simpl. now rewrite IH.
Qed.

(** ** The loop over [optional_fields] *)

Lemma add_optional_get (order : Order) (d : dict) (a f : string) :
  dict_get (add_optional order d a) f =
  if (a =? f)%string && is_not_none (getattr order f)
  then Some (JStr (py_str (getattr order f)))
  else dict_get d f.
Proof.
  unfold add_optional.
  destruct (String.eqb_spec a f) as [->|Hne]; simpl.
  - destruct (is_not_none (getattr order f)); [|reflexivity].
    now rewrite dict_get_set, String.eqb_refl.
  - destruct (is_not_none (getattr order a)); [|reflexivity].
    rewrite dict_get_set. now destruct (String.eqb_spec a f).
Qed.

Lemma fold_optional_get (order : Order) (fs : list string) (d : dict) (f : string) :
  dict_get (fold_left (add_optional order) fs d) f =
  if existsb (fun a => (a =? f)%string) fs && is_not_none (getattr order f)
  then Some (JStr (py_str (getattr order f)))
  else dict_get d f.
Proof.
  revert d; induction fs as [|a fs IH]; intros d; simpl.
  - reflexivity.
  - rewrite IH, add_optional_get.
    destruct (existsb (fun a0 => (a0 =? f)%string) fs); simpl.
    + rewrite orb_true_r. simpl.
      destruct (is_not_none (getattr order f)); [reflexivity|].
      now rewrite andb_false_r.
    + rewrite orb_false_r. reflexivity.
Qed.

Lemma fold_optional_none (order : Order) (fs : list string) (d : dict) :
  (forall f, In f fs -> getattr order f = PyNone) ->
  fold_left (add_optional order) fs d = d.
Proof.
  revert d; induction fs as [|a fs IH]; intros d H; simpl.
  - reflexivity.
  - unfold add_optional at 2. rewrite (H a (or_introl eq_refl)). simpl.
    apply IH. intros f Hf. apply H. now right.
Qed.

Lemma add_recipient_get (order : Order) (d : dict) (f : string) :
  ("recipient" =? f)%string = false ->
  dict_get (add_recipient order d) f = dict_get d f.
Proof.
  intros H. unfold add_recipient. destruct (recipient order); [|reflexivity].
  now rewrite dict_get_set, H.
Qed.

Lemma add_items_get (order : Order) (d : dict) (f : string) :
  ("items" =? f)%string = false ->
  dict_get (add_items order d) f = dict_get d f.
Proof.
  intros H. unfold add_items. destruct (items order); [reflexivity|].
  now rewrite dict_get_set, H.
Qed.

(** What [order_to_dict] holds under one of the fourteen optional keys:
    the string form of the attribute, whenever it is not [None]. *)
Lemma order_to_dict_optional (order : Order) (f : string) :
  In f optional_fields ->
  dict_get (order_to_dict order) f =
  if is_not_none (getattr order f)
  then Some (JStr (py_str (getattr order f))) else None.
Proof.
  intros Hf. unfold order_to_dict.
  assert (Hr : ("recipient" =? f)%string = false
               /\ ("items" =? f)%string = false
               /\ existsb (fun a => (a =? f)%string) optional_fields = true
               /\ dict_get (base_dict order) f = None).
  { simpl in Hf.
    repeat (destruct Hf as [<-|Hf]; [repeat split; reflexivity|]).
    contradiction. }
  destruct Hr as [Hr [Hi [He Hb]]].
  rewrite add_items_get, add_recipient_get, fold_optional_get, He, Hb by assumption.
  reflexivity.
Qed.

Lemma order_to_dict_base (order : Order) (f : string) :
  In f ["order_number"; "order_placed_date"; "grand_total"] ->
  dict_get (order_to_dict order) f = dict_get (base_dict order) f.
Proof.
  intros Hf. unfold order_to_dict.
  assert (Hr : ("recipient" =? f)%string = false
               /\ ("items" =? f)%string = false
               /\ existsb (fun a => (a =? f)%string) optional_fields = false).
  { simpl in Hf.
    repeat (destruct Hf as [<-|Hf]; [repeat split; reflexivity|]).
    contradiction. }
  destruct Hr as [Hr [Hi He]].
  rewrite add_items_get, add_recipient_get, fold_optional_get, He by assumption.
  reflexivity.
Qed.

(* ================================================================== *)
(** ** Serialization of orders and items *)

Ltac each_field H :=
  simpl in H; repeat (destruct H as [<-|H]; [try reflexivity; try discriminate|]);
  try contradiction.

(** C3, as stated, fails: an order that carries nothing but its required
    attributes, with one item that has only a title and a quantity, is
    serialized with [null] written under the item's [price], [link],
    [seller] and [condition]. *)
Lemma order_to_dict_item_nulls :
  order_required_only
    (Samples.bare_order "A-1" [Samples.item_titled "USB Cable"]) = true
  /\ dict_get
       (order_to_dict (Samples.bare_order "A-1" [Samples.item_titled "USB Cable"]))
       "items"
     = Some (JList [JDict [("title", JStr "USB Cable"); ("price", JNull);
                           ("quantity", JInt 1); ("link", JNull);
                           ("seller", JNull); ("condition", JNull)]])
  /\ has_null
       (JDict (order_to_dict
                 (Samples.bare_order "A-1" [Samples.item_titled "USB Cable"])))
     = true.
Proof. repeat split; reflexivity. Qed.

(** C3, amended: for the order itself the claim holds.  With none of the
    fourteen optional attributes and no recipient, [order_to_dict] holds
    the three fixed keys and, when the order has items, ["items"]: no
    optional key.  With all fourteen set, each is there as a string.
    [item_to_dict], for its part, always writes its six keys, with [null]
    where the price, link, seller or condition is absent. *)
Theorem order_to_dict_optional_keys :
  (forall order,
      (forall f, In f optional_fields -> getattr order f = PyNone) ->
      recipient order = None ->
      keys (order_to_dict order) =
      ["order_number"; "order_placed_date"; "grand_total"]
        ++ match items order with [] => [] | _ :: _ => ["items"] end)
  /\ (forall order,
         (forall f, In f optional_fields -> getattr order f <> PyNone) ->
         forall f, In f optional_fields ->
                   dict_get (order_to_dict order) f
                   = Some (JStr (py_str (getattr order f))))
  /\ (forall item,
         keys (item_to_dict item)
         = ["title"; "price"; "quantity"; "link"; "seller"; "condition"]
         /\ (price item = PyNone -> dict_get (item_to_dict item) "price" = Some JNull)
         /\ (link item = PyNone -> dict_get (item_to_dict item) "link" = Some JNull)
         /\ (seller item = None -> dict_get (item_to_dict item) "seller" = Some JNull)
         /\ (condition item = PyNone ->
             dict_get (item_to_dict item) "condition" = Some JNull)).
Proof.
  split; [|split].
  - intros order Hnone Hrec. unfold order_to_dict.
    rewrite (fold_optional_none order optional_fields _ Hnone).
    unfold add_recipient. rewrite Hrec.
    unfold add_items. destruct (items order); reflexivity.
  - intros order Hset f Hf. rewrite (order_to_dict_optional order f Hf).
    specialize (Hset f Hf). destruct (getattr order f); [congruence| | |]; reflexivity.
  - intros item. split; [reflexivity|].
    repeat split; intros H; cbn; rewrite H; reflexivity.
Qed.

Lemma order_to_dict_optional_keys_witness :
  keys (order_to_dict (Samples.bare_order "A-3" []))
  = ["order_number"; "order_placed_date"; "grand_total"]
  /\ dict_get (order_to_dict Samples.full_order) "payment_method"
     = Some (JStr "Visa")
  /\ dict_get (item_to_dict (Samples.item_titled "Desk Lamp")) "price"
     = Some JNull.
Proof.
  destruct order_to_dict_optional_keys as [Hbare [Hfull Hitem]].
  split; [|split].
  - apply (Hbare (Samples.bare_order "A-3" [])); [|reflexivity].
    intros f Hf. each_field Hf.
  - apply (Hfull Samples.full_order).
    + intros f Hf. each_field Hf.
    + simpl. tauto.
  - apply (Hitem (Samples.item_titled "Desk Lamp")). reflexivity.
Defined.

(** C9, as stated, fails on the optional amounts: an order whose
    [subtotal] is the integer zero is serialized with the key
    ["subtotal"] present, holding ["0"]. *)
Lemma zero_subtotal_is_kept :
  truthy (subtotal Samples.free_order) = false
  /\ dict_get (order_to_dict Samples.free_order) "subtotal" = Some (JStr "0").
Proof. split; reflexivity. Qed.

(** C9, amended: a falsy [grand_total] is written as [null] by
    [order_to_dict] and a falsy item [price] as [null] by [item_to_dict],
    since both are tested by truthiness; the fourteen optional attributes
    are tested against [None] only, so a zero amount among them is kept
    and written as its string, and only [None] is left out. *)
Theorem falsy_amounts_serialization :
  (forall order,
      truthy (grand_total order) = false ->
      dict_get (order_to_dict order) "grand_total" = Some JNull)
  /\ (forall item,
         truthy (price item) = false ->
         dict_get (item_to_dict item) "price" = Some JNull)
  /\ (forall order f,
         In f optional_fields ->
         getattr order f <> PyNone ->
         dict_get (order_to_dict order) f
         = Some (JStr (py_str (getattr order f))))
  /\ (forall order f,
         In f optional_fields ->
         getattr order f = PyNone ->
         dict_get (order_to_dict order) f = None).
Proof.
  repeat split.
  - intros order H.
    rewrite (order_to_dict_base order "grand_total") by (simpl; tauto).
    cbn. now rewrite H.
  - intros item H. cbn. now rewrite H.
  - intros order f Hf Hv. rewrite (order_to_dict_optional order f Hf).
    destruct (getattr order f); [congruence| | |]; reflexivity.
  - intros order f Hf Hv. rewrite (order_to_dict_optional order f Hf).
    now rewrite Hv.
Qed.

Lemma falsy_amounts_serialization_witness :
  dict_get (order_to_dict Samples.free_order) "grand_total" = Some JNull
  /\ dict_get (item_to_dict Samples.free_item) "price" = Some JNull
  /\ dict_get (order_to_dict Samples.free_order) "subtotal" = Some (JStr "0")
  /\ dict_get (order_to_dict Samples.free_order) "gift_card" = None.
Proof.
  destruct falsy_amounts_serialization as [Htotal [Hprice [Hkept Hleft]]].
  split; [|split; [|split]].
  - apply (Htotal Samples.free_order). reflexivity.
  - apply (Hprice Samples.free_item). reflexivity.
  - apply (Hkept Samples.free_order "subtotal"); [simpl; tauto | discriminate].
  - apply (Hleft Samples.free_order "gift_card"); [simpl; tauto | reflexivity].
Defined.

(* ================================================================== *)
(** ** The prompt handler *)

Lemma is_otp_prompt_spec (msg : string) :
  is_otp_prompt msg = true <->
  exists word, In word ["otp"; "code"; "verification"]
               /\ exists pre post,
                   ascii_lower msg = (pre ++ word ++ post)%string.
Proof.
  unfold is_otp_prompt. rewrite !orb_true_iff, !contains_spec. split.
  - intros [[H | H] | H].
    + exists "otp". simpl. tauto.
    + exists "code". simpl. tauto.
    + exists "verification". simpl. tauto.
  - intros [word [Hin H]]. simpl in Hin.
    destruct Hin as [<- | [<- | [<- | []]]]; tauto.
Qed.

(** C6, as stated, fails when the code that was supplied is the empty
    string: the handler holds a code, the message is an OTP prompt, and
    the handler raises [OTPRequiredError] instead of answering with the
    code. *)
Lemma empty_code_is_not_answered :
  otp_code (new_io_handler (Some ""%string)) = Some ""%string
  /\ is_otp_prompt "Enter the OTP code" = true
  /\ fst (prompt (new_io_handler (Some ""%string)) "Enter the OTP code")
     = Raise (mk_exn OTPRequiredError "OTP_REQUIRED")
  /\ fst (prompt (new_io_handler (Some ""%string)) "Enter the OTP code")
     <> Ok ""%string.
Proof. repeat split; try reflexivity. discriminate. Qed.

(** C6, amended: a message whose lower-cased text contains "otp", "code"
    or "verification" is answered with the code the handler was given
    when that code is not empty, and raises [OTPRequiredError] with the
    message "OTP_REQUIRED" when the handler was given no code or the
    empty one, the request being recorded in every case; any other
    message raises a [ValueError] that carries the message and leaves the
    handler as it was. *)
Theorem prompt_otp_or_unsupported (self : MCPIOHandler) (msg : string) :
  (is_otp_prompt msg = true <->
   exists word, In word ["otp"; "code"; "verification"]
                /\ exists pre post,
                    ascii_lower msg = (pre ++ word ++ post)%string)
  /\ (is_otp_prompt msg = true ->
      (forall c, otp_code self = Some c -> c <> ""%string ->
                 prompt self msg
                 = (Ok c, {| otp_code := Some c; otp_requested := true |}))
      /\ (otp_code self = None \/ otp_code self = Some ""%string ->
          prompt self msg
          = (Raise (mk_exn OTPRequiredError "OTP_REQUIRED"),
             {| otp_code := otp_code self; otp_requested := true |})))
  /\ (is_otp_prompt msg = false ->
      prompt self msg
      = (Raise (mk_exn ValueError ("Interactive prompt required: " ++ msg)%string),
         self)).
Proof.
  split; [apply is_otp_prompt_spec|]. split.
  - intros Hotp. unfold prompt. rewrite Hotp. split.
    + intros c Hc Hne. rewrite Hc.
      destruct c; [congruence | reflexivity].
    + intros [Hc | Hc]; now rewrite Hc.
  - intros Hotp. unfold prompt. now rewrite Hotp.
Qed.

Lemma prompt_otp_or_unsupported_witness :
  prompt (new_io_handler (Some "123456")) "Enter the OTP Code:"
  = (Ok "123456", {| otp_code := Some "123456"; otp_requested := true |})
  /\ prompt (new_io_handler None) "Enter the OTP Code:"
     = (Raise (mk_exn OTPRequiredError "OTP_REQUIRED"),
        {| otp_code := None; otp_requested := true |})
  /\ prompt (new_io_handler (Some ""%string)) "Your verification CODE"
     = (Raise (mk_exn OTPRequiredError "OTP_REQUIRED"),
        {| otp_code := Some ""%string; otp_requested := true |})
  /\ prompt (new_io_handler (Some "123456")) "Solve this captcha"
     = (Raise (mk_exn ValueError "Interactive prompt required: Solve this captcha"),
        new_io_handler (Some "123456")).
Proof.
  split; [|split; [|split]].
  - destruct (prompt_otp_or_unsupported
                (new_io_handler (Some "123456")) "Enter the OTP Code:")
      as [_ [Hotp _]].
    destruct (Hotp eq_refl) as [Hans _].
    apply (Hans "123456"); [reflexivity | discriminate].
  - destruct (prompt_otp_or_unsupported
                (new_io_handler None) "Enter the OTP Code:")
      as [_ [Hotp _]].
    destruct (Hotp eq_refl) as [_ Hnone].
    apply Hnone. left. reflexivity.
  - destruct (prompt_otp_or_unsupported
                (new_io_handler (Some ""%string)) "Your verification CODE")
      as [_ [Hotp _]].
    destruct (Hotp eq_refl) as [_ Hnone].
    apply Hnone. right. reflexivity.
  - destruct (prompt_otp_or_unsupported
                (new_io_handler (Some "123456")) "Solve this captcha")
      as [_ [_ Hother]].
    apply Hother. reflexivity.
Defined.

(** C10: a handler built with the empty string as its code raises
    [OTPRequiredError] on every OTP prompt, which is what a handler
    built without a code does. *)
Theorem empty_otp_code_is_no_code (msg : string) :
  is_otp_prompt msg = true ->
  prompt (new_io_handler (Some ""%string)) msg
  = (Raise (mk_exn OTPRequiredError "OTP_REQUIRED"),
     {| otp_code := Some ""%string; otp_requested := true |})
  /\ fst (prompt (new_io_handler (Some ""%string)) msg)
     = fst (prompt (new_io_handler None) msg).
Proof.
  intros Hotp. unfold prompt, new_io_handler. simpl. rewrite Hotp. split; reflexivity.
Qed.

Lemma empty_otp_code_is_no_code_witness :
  prompt (new_io_handler (Some ""%string)) "Verification required"
  = (Raise (mk_exn OTPRequiredError "OTP_REQUIRED"),
     {| otp_code := Some ""%string; otp_requested := true |}).
Proof.
  apply (empty_otp_code_is_no_code "Verification required"). reflexivity.
Defined.

(* ================================================================== *)
(** ** [get_orders_client] *)

Section Client.

Variable X : Externals.

(** The fast path: a cached client, and no OTP pending. *)
Lemma get_orders_client_cached (otp : option string) (debug : bool)
      (g : Globals) (client : AmazonOrders) :
  _orders_client g = Some client ->
  _pending_otp_request g = false ->
  get_orders_client X otp debug g = (Ok client, g).
Proof.
  intros Hc Hp. unfold get_orders_client. now rewrite Hc, Hp.
Qed.

Lemma get_orders_client_unconfigured (otp : option string) (debug : bool)
      (g : Globals) :
  _orders_client g = None ->
  credentials_missing X ->
  get_orders_client X otp debug g
  = (Raise (mk_exn ValueError
              (credentials_message (environ_get X "AMAZON_USERNAME")
                                   (environ_get X "AMAZON_PASSWORD"))), g).
Proof.
  intros Hc Hmiss. unfold get_orders_client. rewrite Hc.
  unfold credentials_missing in Hmiss. revert Hmiss.
  destruct (environ_get X "AMAZON_USERNAME") as [u|];
    destruct (environ_get X "AMAZON_PASSWORD") as [p|]; try reflexivity.
  simpl. intros [H|H]; rewrite H;
    [reflexivity | now rewrite andb_false_r].
Qed.

Lemma get_orders_client_attempt (otp : option string) (debug : bool)
      (g : Globals) (u p : string) :
  _orders_client g = None ->
  credentials_set X u p ->
  get_orders_client X otp debug g
  = match run_login (session_login X (session_of X u p debug))
                    (new_io_handler otp) with
    | (Ok _, _) =>
        (Ok {| amazon_session := session_of X u p debug |},
         after_attempt g (session_of X u p debug)
           (Some {| amazon_session := session_of X u p debug |}) false)
    | (Raise e, io) =>
        (Raise e,
         after_attempt g (session_of X u p debug) None
           (if is_otp_required e then true
            else if is_exception e && otp_requested io then true
                 else _pending_otp_request g))
    end.
Proof.
  intros Hc [Hu [Hun [Hp Hpn]]]. unfold get_orders_client.
  rewrite Hc, Hu, Hp, Hun, Hpn. simpl. fold (session_of X u p debug).
  destruct (run_login _ _) as [[[]|e] io]; unfold after_attempt;
    rewrite ?Hc; reflexivity.
Qed.

(** How the tools classify the message about missing credentials. *)
Lemma credentials_message_kind (u p : option string) :
  contains "OTP_REQUIRED" (credentials_message u p) = false
  /\ contains "AMAZON_USERNAME" (credentials_message u p) = true
  /\ contains "Authentication attempts exhausted" (credentials_message u p)
     = false.
Proof.
  unfold credentials_message, set_or_not.
  destruct (str_truthy u), (str_truthy p); repeat split; vm_compute; reflexivity.
Qed.

Lemma handle_auth_error_otp (e : exn) :
  is_otp_required e = true -> _handle_auth_error e = not_logged_in_text.
Proof.
  intros H. unfold _handle_auth_error. now rewrite H, orb_true_r.
Qed.

Lemma handle_auth_error_credentials (u p : option string) :
  _handle_auth_error (mk_exn ValueError (credentials_message u p))
  = ("CONFIG_ERROR: " ++ credentials_message u p)%string.
Proof.
  destruct (credentials_message_kind u p) as [H1 [H2 _]].
  unfold _handle_auth_error, is_otp_required. cbn [exn_msg exn_cls].
  now rewrite H1, H2.
Qed.

Lemma is_otp_required_exception (e : exn) :
  is_otp_required e = true -> is_exception e = true.
Proof. unfold is_otp_required, is_exception. now destruct (exn_cls e). Qed.

(** A query tool: the client step, then the provider. *)
Lemma run_query_unauthenticated (q : Query) (g g1 : Globals) (e : exn) :
  get_orders_client X None false g = (Raise e, g1) ->
  run_query X q g
  = if is_exception e then (Ok (_handle_auth_error e), g1) else (Raise e, g1).
Proof.
  intros H. destruct q; simpl;
    unfold amazon_get_order_history, amazon_get_order, amazon_search_orders;
    now rewrite H.
Qed.

Lemma run_query_keeps_globals (q : Query) (g g1 : Globals)
      (client : AmazonOrders) :
  get_orders_client X None false g = (Ok client, g1) ->
  snd (run_query X q g) = g1.
Proof.
  intros H. destruct q; simpl;
    unfold amazon_get_order_history, amazon_get_order, amazon_search_orders;
    rewrite H.
  - now destruct (get_order_history X client _).
  - now destruct (get_order X client _).
  - destruct (get_order_history X client _); [|reflexivity].
    now destruct (scan_orders X _ _).
Qed.

End Client.

(* ================================================================== *)
(** ** Missing credentials *)

(** C4, as stated, fails: with the password unset, [amazon_login]
    returns no [CONFIG_ERROR] outcome.  Its text begins with
    "Login failed: ", as the text for a provider that cannot be reached
    does; the tag [CONFIG_ERROR] is only put in front of the message by
    the query tools. *)
Lemma login_has_no_config_error :
  amazon_login Samples.X_no_password None false initial
  = (Ok ("Login failed: AMAZON_USERNAME and AMAZON_PASSWORD environment variables must be set. Found: username=set, password=NOT SET"
         ++ String "010" (String "010" ("Traceback:" ++ String "010" "")))%string,
     initial)
  /\ (forall text,
         fst (amazon_login Samples.X_no_password None false initial) = Ok text ->
         contains "CONFIG_ERROR" text = false)
  /\ amazon_login Samples.X_offline None false initial
     = (Ok ("Login failed: 503 Service Unavailable"
            ++ String "010" (String "010" ("Traceback:" ++ String "010" "")))%string,
        after_attempt initial Samples.a_session None false)
  /\ run_query Samples.X_no_password (GetOrder "A-1") initial
     = (Ok "CONFIG_ERROR: AMAZON_USERNAME and AMAZON_PASSWORD environment variables must be set. Found: username=set, password=NOT SET"%string,
        initial).
Proof.
  split; [reflexivity|]. split; [|split; reflexivity].
  intros text H. vm_compute in H. injection H as <-. reflexivity.
Qed.

(** C4, amended: when the account id, the secret or both are unset (or
    empty), [amazon_login] returns, without calling the provider, the
    text "Login failed: " followed by the message that names both
    variables and says [NOT SET] for exactly the credentials that are
    unset and [set] for the others, then an empty line, "Traceback:" and
    (in debug mode only) the traceback.  Without debug, the returned
    text holds "username=NOT SET" exactly when the account id is unset
    and "password=NOT SET" exactly when the secret is, and it never
    holds [CONFIG_ERROR]. *)
Theorem login_reports_missing_credentials
        (X : Externals) (otp : option string) (debug : bool) (g : Globals) :
  credentials_missing X ->
  let u := environ_get X "AMAZON_USERNAME" in
  let p := environ_get X "AMAZON_PASSWORD" in
  let msg :=
    ("AMAZON_USERNAME and AMAZON_PASSWORD environment variables must be set. Found: username="
     ++ (if str_truthy u then "set" else "NOT SET")
     ++ ", password=" ++ (if str_truthy p then "set" else "NOT SET"))%string in
  let text :=
    ("Login failed: " ++ msg
     ++ String "010" (String "010" ("Traceback:" ++ String "010"
          (if debug then format_exc X (mk_exn ValueError msg) else ""))))%string in
  amazon_login X otp debug g = (Ok text, reset g)
  /\ login_calls (snd (amazon_login X otp debug g)) = login_calls g
  /\ (debug = false ->
      contains "username=NOT SET" text = negb (str_truthy u)
      /\ contains "username=set" text = str_truthy u
      /\ contains "password=NOT SET" text = negb (str_truthy p)
      /\ contains "password=set" text = str_truthy p
      /\ contains "CONFIG_ERROR" text = false).
Proof.
  intros Hmiss u p msg text.
  assert (Hmsg : credentials_message u p = msg) by reflexivity.
  assert (Hlogin : amazon_login X otp debug g = (Ok text, reset g)).
  { unfold amazon_login. fold (reset g).
    rewrite (get_orders_client_unconfigured X otp debug (reset g) eq_refl Hmiss).
    fold u p. unfold is_otp_required, is_exception. cbn [exn_msg exn_cls].
    destruct (credentials_message_kind u p) as [_ [_ Hk]].
    rewrite Hk, Hmsg. reflexivity. }
  split; [exact Hlogin|]. split; [now rewrite Hlogin|].
  intros ->. unfold text, msg.
  destruct (str_truthy u), (str_truthy p); repeat split; vm_compute; reflexivity.
Qed.

Lemma login_reports_missing_credentials_witness :
  amazon_login Samples.X_no_password (Some "123456"%string) false initial
  = (Ok ("Login failed: AMAZON_USERNAME and AMAZON_PASSWORD environment variables must be set. Found: username=set, password=NOT SET"
         ++ String "010" (String "010" ("Traceback:" ++ String "010" "")))%string,
     initial).
Proof.
  apply (login_reports_missing_credentials
           Samples.X_no_password (Some "123456"%string) false initial).
  right. reflexivity.
Defined.

(* ================================================================== *)
(** ** Queries without a cached client *)

(** C1, as stated, fails: with no client cached and both credentials
    configured, a query logs in by itself.  On the fresh globals
    [amazon_get_order] calls the provider's [login()] once and returns
    the order. *)
Lemma query_logs_in_by_itself :
  _orders_client initial = None
  /\ amazon_get_order Samples.X_plain "A-9" initial
     = (Ok (Samples.show_json
              (JDict (order_to_dict (Samples.bare_order "A-9" [])))),
        Samples.logged_in)
  /\ login_calls Samples.logged_in = 1.
Proof. repeat split. Qed.

(** C1, amended: a query made while no client is cached attempts a login
    of its own, without an OTP code.  When a credential is unset it
    returns the [CONFIG_ERROR] text and the provider is not called; when
    both are set the provider's [login()] is called exactly once, the
    query returns the [NOT_LOGGED_IN] text (and an OTP is pending) when
    that call raises [OTPRequiredError], and the new client is cached
    when it succeeds. *)
Theorem query_without_client (X : Externals) (q : Query) (g : Globals) :
  _orders_client g = None ->
  (credentials_missing X ->
   run_query X q g
   = (Ok ("CONFIG_ERROR: "
            ++ credentials_message (environ_get X "AMAZON_USERNAME")
                                   (environ_get X "AMAZON_PASSWORD"))%string, g))
  /\ (forall u p,
         credentials_set X u p ->
         let s := session_of X u p false in
         login_calls (snd (run_query X q g)) = S (login_calls g)
         /\ (forall e io,
                run_login (session_login X s) (new_io_handler None) = (Raise e, io) ->
                is_otp_required e = true ->
                run_query X q g
                = (Ok not_logged_in_text, after_attempt g s None true))
         /\ (forall io,
                run_login (session_login X s) (new_io_handler None) = (Ok tt, io) ->
                snd (run_query X q g)
                = after_attempt g s (Some {| amazon_session := s |}) false)).
Proof.
  intros Hnone. split.
  - intros Hmiss.
    rewrite (run_query_unauthenticated X q g g _
               (get_orders_client_unconfigured X None false g Hnone Hmiss)).
    now rewrite handle_auth_error_credentials.
  - intros u p Hset s.
    pose proof (get_orders_client_attempt X None false g u p Hnone Hset) as Hgoc.
    fold s in Hgoc.
    destruct (run_login (session_login X s) (new_io_handler None))
      as [[[]|e] io] eqn:Hrun.
    + split; [|split].
      * now rewrite (run_query_keeps_globals X q g _ _ Hgoc).
      * intros e io0 H. discriminate.
      * intros io0 _. now rewrite (run_query_keeps_globals X q g _ _ Hgoc).
    + split; [|split].
      * rewrite (run_query_unauthenticated X q g _ _ Hgoc).
        now destruct (is_exception e).
      * intros e0 io0 H Hotp. injection H as <- <-.
        rewrite (run_query_unauthenticated X q g _ _ Hgoc).
        now rewrite (is_otp_required_exception e Hotp), Hotp,
          (handle_auth_error_otp e Hotp).
      * intros io0 H. discriminate.
Qed.

Lemma query_without_client_witness :
  run_query Samples.X_no_password (GetOrder "A-1") initial
  = (Ok ("CONFIG_ERROR: AMAZON_USERNAME and AMAZON_PASSWORD environment variables must be set. "
         ++ "Found: username=set, password=NOT SET")%string, initial)
  /\ run_query Samples.X_2fa (SearchOrders "lamp" None None) initial
     = (Ok not_logged_in_text,
        after_attempt initial (session_of Samples.X_2fa "user@example.com" "hunter2" false)
                      None true).
Proof.
  split.
  - apply (query_without_client Samples.X_no_password (GetOrder "A-1") initial eq_refl).
    right. reflexivity.
  - destruct (query_without_client Samples.X_2fa (SearchOrders "lamp" None None)
                                   initial eq_refl) as [_ H].
    destruct (H "user@example.com"%string "hunter2"%string) as [_ [Hotp _]].
    + repeat split.
    + apply (Hotp (mk_exn OTPRequiredError "OTP_REQUIRED")
                  {| otp_code := None; otp_requested := true |});
        reflexivity.
Defined.

(* ================================================================== *)
(** ** What a login attempt comes to *)

Lemma credentials_set_or_missing (X : Externals) :
  credentials_missing X \/ exists u p, credentials_set X u p.
Proof.
  unfold credentials_missing, credentials_set.
  destruct (environ_get X "AMAZON_USERNAME") as [u|]; [|now left; left].
  destruct (environ_get X "AMAZON_PASSWORD") as [p|]; [|now left; right].
  simpl. destruct (nonempty u) eqn:Hu; [|now left; left].
  destruct (nonempty p) eqn:Hp; [|now left; right].
  right. now exists u, p.
Qed.

Lemma amazon_login_unconfigured (X : Externals) (otp : option string)
      (debug : bool) (g : Globals) :
  credentials_missing X ->
  exists detail,
    amazon_login X otp debug g
    = (Ok (login_failed_text
             (credentials_message (environ_get X "AMAZON_USERNAME")
                                  (environ_get X "AMAZON_PASSWORD")) detail),
       reset g).
Proof.
  intros Hmiss. unfold amazon_login. fold (reset g).
  rewrite (get_orders_client_unconfigured X otp debug (reset g) eq_refl Hmiss).
  unfold is_otp_required, is_exception. cbn [exn_msg exn_cls].
  destruct (credentials_message_kind (environ_get X "AMAZON_USERNAME")
                                     (environ_get X "AMAZON_PASSWORD"))
    as [_ [_ Hk]].
  rewrite Hk. eexists. reflexivity.
Qed.

Lemma amazon_login_attempt (X : Externals) (otp : option string) (debug : bool)
      (g : Globals) (u p : string) :
  credentials_set X u p ->
  amazon_login X otp debug g
  = let s := session_of X u p debug in
    match run_login (session_login X s) (new_io_handler otp) with
    | (Ok _, _) =>
        (Ok login_ok, after_attempt g s (Some {| amazon_session := s |}) false)
    | (Raise e, io) =>
        if is_otp_required e then
          (Ok otp_required_text, after_attempt g s None true)
        else if is_exception e then
          (Ok (if contains "Authentication attempts exhausted" (exn_msg e)
               then auth_failed_text otp
                      (if debug then format_exc X e else exn_msg e)
               else login_failed_text (exn_msg e)
                      (if debug then format_exc X e else ""%string)),
           after_attempt g s None
             (if otp_requested io then true else _pending_otp_request g))
        else (Raise e, after_attempt g s None (_pending_otp_request g))
    end.
Proof.
  intros Hset. unfold amazon_login. fold (reset g).
  rewrite (get_orders_client_attempt X otp debug (reset g) u p eq_refl Hset).
  cbv zeta.
  destruct (run_login _ _) as [[[]|e] io]; [reflexivity|].
  destruct (is_otp_required e); [reflexivity|].
  destruct (is_exception e); [|reflexivity].
  destruct (contains "Authentication attempts exhausted" (exn_msg e));
    reflexivity.
Qed.

(** Without a usable code, such a provider call ends in the handler's
    signal, the request recorded. *)
Lemma run_login_asks_for_otp (script : LoginScript) (otp : option string) :
  asks_for_otp script ->
  str_truthy otp = false ->
  run_login script (new_io_handler otp)
  = (Raise (mk_exn OTPRequiredError "OTP_REQUIRED"),
     {| otp_code := otp; otp_requested := true |}).
Proof.
  intros Hasks Hcode. induction Hasks as [msg on_answer Hmsg | msg next _ IH].
  - simpl. unfold prompt, new_io_handler. simpl. rewrite Hmsg.
    destruct otp as [c|]; [|reflexivity].
    simpl in Hcode. now rewrite Hcode.
  - simpl. exact IH.
Qed.

(* ================================================================== *)
(** ** What crosses the tool boundary *)

(** C2, as stated, fails: with a client cached, a provider failure while
    the order is fetched leaves [amazon_get_order] as an exception, and
    so it does for the history and the search. *)
Lemma provider_failure_escapes :
  amazon_get_order Samples.X_down "A-1" Samples.logged_in
  = (Raise Samples.boom, Samples.logged_in)
  /\ amazon_get_order_history Samples.X_down (Some 2024%Z) None false
                              Samples.logged_in
     = (Raise Samples.boom, Samples.logged_in)
  /\ amazon_search_orders Samples.X_down "lamp" None None Samples.logged_in
     = (Raise Samples.boom, Samples.logged_in).
Proof. repeat split. Qed.

(** C2, amended: [amazon_login] returns a text for every [Exception] of
    the login attempt; it raises only what the provider's [login()]
    raised outside [Exception], and that it does raise.  A query tool
    turns every [Exception] of its client step into a returned text and
    lets anything else through.  What is raised after the client step
    (by the provider while the orders are fetched, by the title test of
    the search, by [json.dumps]) is not caught and leaves the tool as
    that exception; when these steps succeed the tool returns their
    text. *)
Theorem tool_boundary (X : Externals) :
  (forall otp debug g,
      (exists text, fst (amazon_login X otp debug g) = Ok text)
      \/ (exists e u p io,
             fst (amazon_login X otp debug g) = Raise e
             /\ is_exception e = false
             /\ credentials_set X u p
             /\ run_login (session_login X (session_of X u p debug))
                          (new_io_handler otp) = (Raise e, io)))
  /\ (forall otp debug g u p e io,
         credentials_set X u p ->
         run_login (session_login X (session_of X u p debug))
                   (new_io_handler otp) = (Raise e, io) ->
         (is_exception e = true ->
          exists text, fst (amazon_login X otp debug g) = Ok text)
         /\ (is_exception e = false ->
             fst (amazon_login X otp debug g) = Raise e))
  /\ (forall q g e g1,
         get_orders_client X None false g = (Raise e, g1) ->
         run_query X q g
         = if is_exception e then (Ok (_handle_auth_error e), g1)
           else (Raise e, g1))
  /\ (forall g client g1,
         get_orders_client X None false g = (Ok client, g1) ->
         (forall order_id,
             amazon_get_order X order_id g
             = match get_order X client order_id with
               | Raise e => (Raise e, g1)
               | Ok order => (json_dumps X (JDict (order_to_dict order)), g1)
               end)
         /\ (forall year time_filter full_details,
                amazon_get_order_history X year time_filter full_details g
                = match get_order_history X client
                          (make_kwargs X full_details time_filter year) with
                  | Raise e => (Raise e, g1)
                  | Ok orders => (dump_orders X orders, g1)
                  end)
         /\ (forall search_term year time_filter,
                amazon_search_orders X search_term year time_filter g
                = match get_order_history X client
                          (make_kwargs X true time_filter year) with
                  | Raise e => (Raise e, g1)
                  | Ok orders =>
                      match scan_orders X (str_lower X search_term) orders with
                      | Raise e => (Raise e, g1)
                      | Ok matching_orders =>
                          (dump_orders X matching_orders, g1)
                      end
                  end)).
Proof.
  split; [|split; [|split]].
  - intros otp debug g.
    destruct (credentials_set_or_missing X) as [Hmiss | [u [p Hset]]].
    + destruct (amazon_login_unconfigured X otp debug g Hmiss) as [detail ->].
      left. eexists. reflexivity.
    + rewrite (amazon_login_attempt X otp debug g u p Hset). cbv zeta.
      destruct (run_login _ _) as [[[]|e] io] eqn:Hrun.
      * left. now exists login_ok.
      * destruct (is_otp_required e); [left; now exists otp_required_text|].
        destruct (is_exception e) eqn:Hexc.
        -- left. eexists. reflexivity.
        -- right. exists e, u, p, io.
           split; [reflexivity|]. split; [exact Hexc|].
           split; [exact Hset | exact Hrun].
  - intros otp debug g u p e io Hset Hrun.
    rewrite (amazon_login_attempt X otp debug g u p Hset). cbv zeta.
    rewrite Hrun. split; intros Hexc.
    + destruct (is_otp_required e); [now exists otp_required_text|].
      rewrite Hexc. eexists. reflexivity.
    + destruct (is_otp_required e) eqn:Hotp.
      * apply is_otp_required_exception in Hotp. congruence.
      * now rewrite Hexc.
  - intros q g e g1. apply run_query_unauthenticated.
  - intros g client g1 H. split; [|split]; intros;
      unfold amazon_get_order, amazon_get_order_history, amazon_search_orders;
      rewrite H; reflexivity.
Qed.

Lemma tool_boundary_witness :
  run_query Samples.X_2fa (GetOrder "A-1") initial
  = (Ok not_logged_in_text,
     after_attempt initial (session_of Samples.X_2fa "user@example.com" "hunter2" false)
                   None true)
  /\ amazon_get_order Samples.X_down "A-1" Samples.logged_in
     = (Raise Samples.boom, Samples.logged_in)
  /\ fst (amazon_login Samples.X_interrupted None false initial)
     = Raise Samples.interrupted
  /\ (exists text, fst (amazon_login Samples.X_offline None false initial) = Ok text).
Proof.
  destruct (tool_boundary Samples.X_2fa) as [_ [_ [Hauth _]]].
  destruct (tool_boundary Samples.X_down) as [_ [_ [_ Hfetch]]].
  destruct (tool_boundary Samples.X_interrupted) as [_ [Hint _]].
  destruct (tool_boundary Samples.X_offline) as [_ [Hoff _]].
  split; [|split; [|split]].
  - apply (Hauth (GetOrder "A-1") initial (mk_exn OTPRequiredError "OTP_REQUIRED")).
    reflexivity.
  - destruct (Hfetch Samples.logged_in
                     {| amazon_session := Samples.a_session |} Samples.logged_in
                     eq_refl) as [Hget _].
    apply (Hget "A-1"%string).
  - apply (Hint None false initial "user@example.com"%string "hunter2"%string
                Samples.interrupted (new_io_handler None));
      [repeat split | reflexivity | reflexivity].
  - apply (Hoff None false initial "user@example.com"%string "hunter2"%string
                Samples.boom (new_io_handler None));
      [repeat split | reflexivity | reflexivity].
Defined.

(* ================================================================== *)
(** ** Login and the pending OTP *)



(* ================================================================== *)
(** ** Search *)

Lemma title_matches_hit (X : Externals) (search_lower : string) (item : Item)
      (b : bool) :
  title_matches X search_lower item = Ok b ->
  b = title_hit X search_lower item.
Proof.
  unfold title_matches, title_hit.
  destruct (title item) as [|z|t|truth repr]; simpl.
  - now intros [= <-].
  - destruct (negb (z =? 0)%Z); [discriminate | now intros [= <-]].
  - now intros [= <-].
  - destruct truth; [discriminate | now intros [= <-]].
Qed.

Lemma title_matches_plain (X : Externals) (search_lower : string) (item : Item) :
  plain_title item = true ->
  title_matches X search_lower item = Ok (title_hit X search_lower item).
Proof.
  unfold title_matches, title_hit, plain_title.
  destruct (title item) as [|z|t|truth repr]; simpl; try reflexivity.
  - destruct (negb (z =? 0)%Z); [discriminate | reflexivity].
  - destruct truth; [discriminate | reflexivity].
Qed.

(** the inner loop, when it ends, has found whether an item matches *)
Lemma scan_items_hit (X : Externals) (search_lower : string) (its : list Item)
      (b : bool) :
  scan_items X search_lower its = Ok b ->
  b = existsb (title_hit X search_lower) its.
Proof.
  induction its as [|item rest IH]; simpl.
  - now intros [= <-].
  - destruct (title_matches X search_lower item) as [[|]|e] eqn:Hm;
      [| |discriminate].
    + apply title_matches_hit in Hm. rewrite <- Hm. now intros [= <-].
    + apply title_matches_hit in Hm. rewrite <- Hm. exact IH.
Qed.

Lemma scan_items_plain (X : Externals) (search_lower : string) (its : list Item) :
  (forall item, In item its -> plain_title item = true) ->
  scan_items X search_lower its = Ok (existsb (title_hit X search_lower) its).
Proof.
  induction its as [|item rest IH]; simpl; intros Hplain; [reflexivity|].
  rewrite (title_matches_plain X search_lower item) by (apply Hplain; now left).
  destruct (title_hit X search_lower item); [reflexivity|].
  apply IH. intros item' H. apply Hplain. now right.
Qed.

Lemma scan_orders_from_step (X : Externals) (search_lower : string)
      (order : Order) (rest acc : list Order) :
  scan_orders_from X search_lower (order :: rest) acc
  = match scan_items X search_lower (items order) with
    | Raise e => Raise e
    | Ok true => scan_orders_from X search_lower rest (acc ++ [order])
    | Ok false => scan_orders_from X search_lower rest acc
    end.
Proof. simpl. now destruct (items order). Qed.

(** The loop ends exactly when the inner loop ends for every order, and
    then it has kept, in their order, the orders one of whose items
    matches. *)
Lemma scan_orders_from_ok (X : Externals) (search_lower : string)
      (orders acc matching : list Order) :
  scan_orders_from X search_lower orders acc = Ok matching <->
  Forall (fun order => exists b, scan_items X search_lower (items order) = Ok b)
         orders
  /\ matching
     = acc ++ filter (fun order => existsb (title_hit X search_lower) (items order))
                     orders.
Proof.
  revert acc. induction orders as [|order rest IH]; intros acc.
  - simpl. rewrite app_nil_r. split.
    + intros [= <-]. split; [constructor | reflexivity].
    + now intros [_ ->].
  - rewrite scan_orders_from_step. cbn [filter].
    destruct (scan_items X search_lower (items order)) as [b|e] eqn:Hscan.
    + rewrite <- (scan_items_hit X search_lower (items order) b Hscan).
      destruct b; rewrite IH; rewrite <- ?app_assoc; simpl.
      * split; intros [Hall Hm]; (split; [|exact Hm]).
        -- constructor; [now exists true | exact Hall].
        -- now inversion Hall.
      * split; intros [Hall Hm]; (split; [|exact Hm]).
        -- constructor; [now exists false | exact Hall].
        -- now inversion Hall.
    + split; [discriminate|].
      intros [Hall _]. inversion Hall as [|o l [b Hb] _]; subst. congruence.
Qed.

Lemma scan_orders_ok (X : Externals) (search_lower : string)
      (orders matching : list Order) :
  scan_orders X search_lower orders = Ok matching <->
  Forall (fun order => exists b, scan_items X search_lower (items order) = Ok b)
         orders
  /\ matching
     = filter (fun order => existsb (title_hit X search_lower) (items order))
              orders.
Proof. unfold scan_orders. now rewrite scan_orders_from_ok. Qed.

Lemma scan_orders_plain (X : Externals) (search_lower : string)
      (orders : list Order) :
  plain_titles orders ->
  scan_orders X search_lower orders
  = Ok (filter (fun order => existsb (title_hit X search_lower) (items order))
               orders).
Proof.
  intros Hplain. apply scan_orders_ok. split; [|reflexivity].
  apply Forall_forall. intros order Hin. eexists.
  apply scan_items_plain. intros item Hitem. exact (Hplain order item Hin Hitem).
Qed.





(* ================================================================== *)
(** ** The cached client *)

Lemma run_queries_cached (X : Externals) (qs : list Query) (g : Globals)
      (client : AmazonOrders) :
  _orders_client g = Some client ->
  _pending_otp_request g = false ->
  snd (run_queries X qs g) = g.
Proof.
  intros Hc Hp. induction qs as [|q rest IH]; simpl; [reflexivity|].
  pose proof (run_query_keeps_globals X q g g client
                (get_orders_client_cached X None false g client Hc Hp)) as Hq.
  destruct (run_query X q g) as [r gq]. simpl in Hq. subst gq.
  destruct (run_queries X rest g) as [rs g2]. exact IH.
Qed.

(** C8: when [amazon_login] has answered that the login succeeded, the
    provider's [login()] was called once for it, a client is cached and
    no OTP is pending; from then on [get_orders_client] returns that
    client and changes nothing, and any sequence of queries leaves the
    globals, the count of provider logins included, as they are. *)
Theorem queries_reuse_cached_client
        (X : Externals) (otp : option string) (debug : bool) (g g1 : Globals) :
  amazon_login X otp debug g = (Ok login_ok, g1) ->
  login_calls g1 = S (login_calls g)
  /\ (exists client,
         _orders_client g1 = Some client
         /\ _pending_otp_request g1 = false
         /\ forall otp' debug',
             get_orders_client X otp' debug' g1 = (Ok client, g1))
  /\ (forall qs,
         snd (run_queries X qs g1) = g1
         /\ login_calls (snd (run_queries X qs g1)) = S (login_calls g)).
Proof.
  intros Hlogin.
  assert (Hshape : exists s,
             g1 = after_attempt g s (Some {| amazon_session := s |}) false).
  { revert Hlogin. unfold amazon_login. fold (reset g).
    destruct (str_truthy (environ_get X "AMAZON_USERNAME")) eqn:Hu;
      [destruct (str_truthy (environ_get X "AMAZON_PASSWORD")) eqn:Hp|].
    - destruct (environ_get X "AMAZON_USERNAME") as [u|] eqn:Hue; [|discriminate].
      destruct (environ_get X "AMAZON_PASSWORD") as [p|] eqn:Hpe; [|discriminate].
      rewrite (get_orders_client_attempt X otp debug (reset g) u p eq_refl
                 (conj Hue (conj Hu (conj Hpe Hp)))).
      destruct (run_login _ _) as [[[]|e] io].
      + intros H. injection H as <-. now exists (session_of X u p debug).
      + destruct (is_otp_required e).
        * intros H. injection H as H _. discriminate H.
        * destruct (is_exception e); [|intros H; discriminate H].
          destruct (contains "Authentication attempts exhausted" (exn_msg e));
            intros H; injection H as H _; discriminate H.
    - rewrite (get_orders_client_unconfigured X otp debug (reset g) eq_refl
                 (or_intror Hp)).
      unfold is_otp_required, is_exception. cbn [exn_msg exn_cls].
      destruct (contains _ _); intros H; injection H as H _; discriminate H.
    - rewrite (get_orders_client_unconfigured X otp debug (reset g) eq_refl
                 (or_introl Hu)).
      unfold is_otp_required, is_exception. cbn [exn_msg exn_cls].
      destruct (contains _ _); intros H; injection H as H _; discriminate H. }
  destruct Hshape as [s ->]. split; [reflexivity|]. split.
  - exists {| amazon_session := s |}. split; [reflexivity|]. split; [reflexivity|].
    intros otp' debug'. now apply get_orders_client_cached.
  - intros qs.
    rewrite (run_queries_cached X qs
               (after_attempt g s (Some {| amazon_session := s |}) false)
               {| amazon_session := s |} eq_refl eq_refl).
    split; reflexivity.
Qed.

Lemma queries_reuse_cached_client_witness :
  login_calls Samples.logged_in = 1
  /\ snd (run_queries Samples.X_plain
            [GetOrder "A-1"; SearchOrders "lamp" None None;
             GetOrderHistory None (Some "last30"%string) true]
            Samples.logged_in)
     = Samples.logged_in.
Proof.
  destruct (queries_reuse_cached_client Samples.X_plain None false initial
              Samples.logged_in eq_refl) as [Hcalls [_ Hqueries]].
  split.
  - exact Hcalls.
  - apply (Hqueries [GetOrder "A-1"; SearchOrders "lamp" None None;
                     GetOrderHistory None (Some "last30"%string) true]).
Defined.

(* ================================================================== *)
(** * Further properties *)

(** ** The keys of a serialized order *)

Lemma dict_get_keys (d : dict) (k : string) :
  dict_get d k = None <-> ~ In k (keys d).
Proof.
  unfold keys. induction d as [|[k0 v0] d IH]; simpl.
  - tauto.
  - destruct (String.eqb_spec k0 k) as [->|Hne].
    + split; [discriminate | tauto].
    + rewrite IH. tauto.
Qed.

Lemma fold_optional_keys (order : Order) (fs : list string) (d : dict) :
  NoDup fs ->
  (forall f, In f fs -> dict_get d f = None) ->
  keys (fold_left (add_optional order) fs d)
  = keys d ++ filter (fun field => is_not_none (getattr order field)) fs.
Proof.
  revert d; induction fs as [|a fs IH]; intros d Hnd Hfresh; simpl.
  - now rewrite app_nil_r.
  - inversion Hnd as [|a' fs' Hnotin Hnd']; subst.
    unfold add_optional at 2.
    destruct (is_not_none (getattr order a)).
    + rewrite IH; [|assumption|].
      * rewrite keys_set_fresh by (apply Hfresh; now left).
        now rewrite <- app_assoc.
      * intros f Hf. rewrite dict_get_set.
        destruct (String.eqb_spec a f) as [->|_]; [contradiction|].
        apply Hfresh. now right.
    + apply IH; [assumption|]. intros f Hf. apply Hfresh. now right.
Qed.

Lemma optional_fields_nodup : NoDup optional_fields.
Proof.
  unfold optional_fields.
  repeat (constructor; [simpl; intuition discriminate|]). constructor.
Qed.

Lemma nodup_keys_set (d : dict) (k : string) (v : json) :
  NoDup (keys d) -> NoDup (keys (dict_set d k v)).
Proof.
  intros Hnd. destruct (dict_get d k) as [v0|] eqn:Hget.
  - enough (H : keys (dict_set d k v) = keys d) by now rewrite H.
    clear Hnd. revert Hget. unfold keys.
    induction d as [|[k0 v1] d IH]; simpl; [discriminate|].
    destruct (String.eqb_spec k0 k) as [->|Hne]; [reflexivity|].
    intros H. simpl. now rewrite IH.
  - rewrite keys_set_fresh by assumption.
    apply NoDup_app; [assumption | repeat constructor; simpl; tauto |].
    intros x Hx [<-|[]]. now apply dict_get_keys in Hget.
Qed.

Lemma order_to_dict_expected_keys (order : Order) :
  keys (order_to_dict order) = expected_keys order.
Proof.
  unfold order_to_dict, expected_keys.
  set (d := fold_left (add_optional order) optional_fields (base_dict order)).
  assert (Hd : keys d
               = ["order_number"; "order_placed_date"; "grand_total"]
                   ++ filter (fun field => is_not_none (getattr order field))
                        optional_fields).
  { unfold d. rewrite fold_optional_keys; [reflexivity | apply optional_fields_nodup |].
    intros f Hf. each_field Hf. }
  assert (Hrec : dict_get d "recipient" = None).
  { unfold d. now rewrite fold_optional_get. }
  assert (Hitems : dict_get (add_recipient order d) "items" = None).
  { rewrite add_recipient_get by reflexivity. unfold d.
    now rewrite fold_optional_get. }
  assert (Hr : keys (add_recipient order d)
               = keys d ++ match recipient order with
                           | Some _ => ["recipient"] | None => [] end).
  { unfold add_recipient. destruct (recipient order).
    - now rewrite keys_set_fresh.
    - now rewrite app_nil_r. }
  unfold add_items at 1. destruct (items order) as [|item its].
  + rewrite Hr, Hd, app_nil_r. now rewrite <- app_assoc.
  + rewrite keys_set_fresh by assumption.
    rewrite Hr, Hd. now rewrite <- !app_assoc.
Qed.

(** X1: the keys of [order_to_dict order] are, in this order, the three
    fixed ones, the optional attributes that are not [None] in the order
    of [optional_fields], then ["recipient"] when there is a recipient
    and ["items"] when the item list is not empty; no key occurs twice. *)
Theorem order_to_dict_keys (order : Order) :
  keys (order_to_dict order) = expected_keys order
  /\ NoDup (keys (order_to_dict order)).
Proof.
  split; [apply order_to_dict_expected_keys|].
  unfold order_to_dict.
  assert (Hfold : forall fs d, NoDup (keys d) ->
                               NoDup (keys (fold_left (add_optional order) fs d))).
  { induction fs as [|a fs IH]; intros d Hd; simpl; [assumption|].
    apply IH. unfold add_optional.
    destruct (is_not_none (getattr order a)); [now apply nodup_keys_set | assumption]. }
  unfold add_items, add_recipient.
  assert (Hbase : NoDup (keys (base_dict order))).
  { simpl. repeat (constructor; [simpl; intuition discriminate|]). constructor. }
  specialize (Hfold optional_fields _ Hbase).
  destruct (items order), (recipient order);
    repeat apply nodup_keys_set; assumption.
Qed.

(** X2: under ["items"] a serialized order holds one dictionary per item,
    in the order of the items, and the key is absent when the order has
    no item; under ["recipient"] it holds the two keys [name] and
    [address] (each [null] when the recipient lacks it), and the key is
    absent when there is no recipient. *)
Theorem order_to_dict_nested (order : Order) :
  dict_get (order_to_dict order) "items"
  = match items order with
    | [] => None
    | _ :: _ =>
        Some (JList (map (fun item => JDict (item_to_dict item)) (items order)))
    end
  /\ dict_get (order_to_dict order) "recipient"
     = match recipient order with
       | None => None
       | Some r => Some (JDict [("name", json_of_raw (name r));
                                ("address", json_of_raw (address r))])
       end.
Proof.
  unfold order_to_dict.
  set (d := fold_left (add_optional order) optional_fields (base_dict order)).
  assert (Hrec : dict_get d "recipient" = None)
    by (unfold d; now rewrite fold_optional_get).
  assert (Hitems : dict_get d "items" = None)
    by (unfold d; now rewrite fold_optional_get).
  split.
  - unfold add_items. destruct (items order) as [|item its].
    + now rewrite add_recipient_get.
    + now rewrite dict_get_set.
  - rewrite add_items_get by reflexivity.
    unfold add_recipient. destruct (recipient order) as [r|]; [|assumption].
    now rewrite dict_get_set.
Qed.

(* ================================================================== *)
(** ** The period that is asked for *)

(** X3: the keyword arguments sent to the provider always carry exactly
    one of [time_filter] and [year]: a filter only if the caller gave a
    non-empty one, otherwise a year, which is the caller's when that is
    not zero and the current year when it is zero or missing. *)
Theorem make_kwargs_one_period
        (X : Externals) (full_details : bool)
        (time_filter : option string) (year : option Z) :
  let kw := make_kwargs X full_details time_filter year in
  kw_full_details kw = full_details
  /\ (kw_time_filter kw = None <-> kw_year kw <> None)
  /\ (forall t, kw_time_filter kw = Some t ->
                time_filter = Some t /\ t <> ""%string)
  /\ (forall z, kw_year kw = Some z ->
                str_truthy time_filter = false
                /\ ((year = Some z /\ z <> 0%Z)
                    \/ (int_truthy year = false /\ z = now_year X))).
Proof.
  unfold make_kwargs.
  destruct (str_truthy time_filter) eqn:Htf; [|destruct (int_truthy year) eqn:Hy];
    cbn [kw_full_details kw_time_filter kw_year].
  - split; [reflexivity|]. split; [split; [intros H; now rewrite H in Htf | tauto]|].
    split; [|discriminate].
    intros t ->. split; [reflexivity|]. now apply nonempty_true.
  - split; [reflexivity|]. split.
    { split; [intros _ H; now rewrite H in Hy | reflexivity]. }
    split; [discriminate|].
    intros z ->. split; [reflexivity|]. left. split; [reflexivity|].
    simpl in Hy. intros ->. discriminate.
  - split; [reflexivity|]. split; [split; [discriminate | reflexivity]|].
    split; [discriminate|].
    intros z H. injection H as <-. split; [reflexivity|]. now right.
Qed.

(** X4: for the history and for the search alike, a [year] is ignored
    when a non-empty [time_filter] is given; an empty filter is the same
    as none; and a year of zero is the same as none, which in turn is
    the same as the current year when that is not zero. *)
Theorem period_arguments_equivalent
        (X : Externals) (full_details : bool) (search_term : string)
        (g : Globals) :
  (forall time_filter year year',
      str_truthy time_filter = true ->
      amazon_get_order_history X year time_filter full_details g
      = amazon_get_order_history X year' time_filter full_details g
      /\ amazon_search_orders X search_term year time_filter g
         = amazon_search_orders X search_term year' time_filter g)
  /\ (forall year,
         amazon_get_order_history X year (Some ""%string) full_details g
         = amazon_get_order_history X year None full_details g
         /\ amazon_search_orders X search_term year (Some ""%string) g
            = amazon_search_orders X search_term year None g)
  /\ (forall time_filter,
         amazon_get_order_history X (Some 0%Z) time_filter full_details g
         = amazon_get_order_history X None time_filter full_details g
         /\ amazon_search_orders X search_term (Some 0%Z) time_filter g
            = amazon_search_orders X search_term None time_filter g)
  /\ (now_year X <> 0%Z ->
      forall time_filter,
        amazon_get_order_history X None time_filter full_details g
        = amazon_get_order_history X (Some (now_year X)) time_filter
                                   full_details g
        /\ amazon_search_orders X search_term None time_filter g
           = amazon_search_orders X search_term (Some (now_year X))
                                  time_filter g).
Proof.
  assert (Hkw : forall tf tf' y y',
             (forall fd, make_kwargs X fd tf y = make_kwargs X fd tf' y') ->
             amazon_get_order_history X y tf full_details g
             = amazon_get_order_history X y' tf' full_details g
             /\ amazon_search_orders X search_term y tf g
                = amazon_search_orders X search_term y' tf' g).
  { intros tf tf' y y' H.
    unfold amazon_get_order_history, amazon_search_orders.
    now rewrite (H full_details), (H true). }
  split; [|split; [|split]].
  - intros tf y y' Htf. apply Hkw. intros fd. unfold make_kwargs. now rewrite Htf.
  - intros y. apply Hkw. reflexivity.
  - intros tf. apply Hkw. reflexivity.
  - intros Hnow tf. apply Hkw. intros fd. unfold make_kwargs.
    destruct (str_truthy tf); [reflexivity|]. simpl.
    destruct (Z.eqb_spec (now_year X) 0); [contradiction | reflexivity].
Qed.

Lemma period_arguments_equivalent_witness :
  amazon_get_order_history Samples.X_plain (Some 1999%Z) (Some "last30"%string)
                           false Samples.logged_in
  = amazon_get_order_history Samples.X_plain None (Some "last30"%string)
                             false Samples.logged_in
  /\ amazon_search_orders Samples.X_plain "lamp" None None initial
     = amazon_search_orders Samples.X_plain "lamp" (Some 2026%Z) None initial.
Proof.
  destruct (period_arguments_equivalent Samples.X_plain false "lamp"
                                        Samples.logged_in) as [Hfilter _].
  destruct (period_arguments_equivalent Samples.X_plain false "lamp" initial)
    as [_ [_ [_ Hnow]]].
  split.
  - apply (Hfilter (Some "last30"%string) (Some 1999%Z) None). reflexivity.
  - apply (Hnow ltac:(discriminate) None).
Defined.

Lemma make_kwargs_one_period_witness :
  kw_time_filter (make_kwargs Samples.X_plain false (Some "months-3"%string)
                              (Some 2020%Z))
  = Some "months-3"%string
  /\ kw_year (make_kwargs Samples.X_plain true (Some ""%string) (Some 0%Z))
     = Some 2026%Z.
Proof.
  split.
  - destruct (make_kwargs_one_period Samples.X_plain false
                (Some "months-3"%string) (Some 2020%Z)) as [_ [_ [Hfilter _]]].
    destruct (kw_time_filter _) as [t|] eqn:Ht; [|discriminate].
    now destruct (Hfilter t eq_refl) as [-> _].
  - destruct (make_kwargs_one_period Samples.X_plain true
                (Some ""%string) (Some 0%Z)) as [_ [_ [_ Hyear]]].
    destruct (kw_year _) as [z|] eqn:Hz; [|discriminate].
    destruct (Hyear z eq_refl) as [_ [[H _] | [_ ->]]]; [|reflexivity].
    injection H as <-. discriminate Hz.
Defined.

(* ================================================================== *)
(** ** How failures are worded *)

Lemma starts_with_app (tag rest : string) :
  starts_with tag (tag ++ rest)%string = true.
Proof. unfold starts_with. apply prefix_app. now exists rest. Qed.

(** X5: [_handle_auth_error] answers with one of four tags; it answers
    [NOT_LOGGED_IN] exactly when the exception is an [OTPRequiredError]
    or its message contains "OTP_REQUIRED", whatever else the message
    says, and it answers [CONFIG_ERROR] followed by the message exactly
    when that is not the case and the message names one of the two
    environment variables. *)
Theorem handle_auth_error_tags (e : exn) :
  (starts_with "NOT_LOGGED_IN: " (_handle_auth_error e) = true
   \/ starts_with "CONFIG_ERROR: " (_handle_auth_error e) = true
   \/ starts_with "AUTH_FAILED: " (_handle_auth_error e) = true
   \/ starts_with "Error: " (_handle_auth_error e) = true)
  /\ (_handle_auth_error e = not_logged_in_text <->
      is_otp_required e = true
      \/ contains "OTP_REQUIRED" (exn_msg e) = true)
  /\ (starts_with "CONFIG_ERROR: " (_handle_auth_error e) = true <->
      is_otp_required e = false
      /\ contains "OTP_REQUIRED" (exn_msg e) = false
      /\ (contains "AMAZON_USERNAME" (exn_msg e) = true
          \/ contains "AMAZON_PASSWORD" (exn_msg e) = true)).
Proof.
  unfold _handle_auth_error.
  destruct (contains "OTP_REQUIRED" (exn_msg e)) eqn:Hotp;
    destruct (is_otp_required e) eqn:Hcls; cbn [orb];
    try (split; [left; reflexivity|];
         split; [split; [tauto | reflexivity]|];
         split; [discriminate | intros [H1 [H2 _]]; discriminate]).
  destruct (contains "AMAZON_USERNAME" (exn_msg e)) eqn:Hu;
    [|destruct (contains "AMAZON_PASSWORD" (exn_msg e)) eqn:Hp]; cbn [orb].
  - split; [right; left; apply starts_with_app|].
    split; [split; [discriminate | intros [H|H]; discriminate]|].
    split; [tauto | intros _; apply starts_with_app].
  - split; [right; left; apply starts_with_app|].
    split; [split; [discriminate | intros [H|H]; discriminate]|].
    split; [tauto | intros _; apply starts_with_app].
  - destruct (contains "Authentication attempts exhausted" (exn_msg e)).
    + split; [right; right; left; reflexivity|].
      split; [split; [discriminate | intros [H|H]; discriminate]|].
      split; [discriminate | intros [_ [_ [H|H]]]; discriminate].
    + split; [right; right; right; apply starts_with_app|].
      split; [split; [discriminate | intros [H|H]; discriminate]|].
      split; [discriminate | intros [_ [_ [H|H]]]; discriminate].
Qed.

Lemma handle_auth_error_tags_witness :
  _handle_auth_error
    (mk_exn OtherException
            "Authentication attempts exhausted after OTP_REQUIRED")
  = not_logged_in_text.
Proof.
  destruct (handle_auth_error_tags
              (mk_exn OtherException
                      "Authentication attempts exhausted after OTP_REQUIRED"))
    as [_ [Hotp _]].
  apply Hotp. right. reflexivity.
Defined.

(* ================================================================== *)
(** ** What a login leaves behind *)

(** X6: [amazon_login] either returns one of four texts or raises, and
    the globals agree with the outcome: after the success text a client
    is cached and no OTP is pending; after the [OTP_REQUIRED] text no
    client is cached and an OTP is pending; after a text starting with
    "AUTH_FAILED: " or with "Login failed: " no client is cached.  It
    raises only what the provider's [login()] raised outside
    [Exception]; then no client is cached and [_pending_otp_request] is
    as it was.  So a client is cached after the call exactly when the
    success text was returned, whatever was cached before. *)
Theorem amazon_login_outcomes
        (X : Externals) (otp : option string) (debug : bool) (g : Globals) :
  (exists text g1,
      amazon_login X otp debug g = (Ok text, g1)
      /\ ((text = login_ok
           /\ (exists client, _orders_client g1 = Some client)
           /\ _pending_otp_request g1 = false)
          \/ (text = otp_required_text
              /\ _orders_client g1 = None /\ _pending_otp_request g1 = true)
          \/ (starts_with "AUTH_FAILED: " text = true /\ _orders_client g1 = None)
          \/ (starts_with "Login failed: " text = true
              /\ _orders_client g1 = None)))
  \/ (exists e g1 u p io,
         amazon_login X otp debug g = (Raise e, g1)
         /\ is_exception e = false
         /\ credentials_set X u p
         /\ run_login (session_login X (session_of X u p debug))
                      (new_io_handler otp) = (Raise e, io)
         /\ _orders_client g1 = None
         /\ _pending_otp_request g1 = _pending_otp_request g).
Proof.
  destruct (credentials_set_or_missing X) as [Hmiss | [u [p Hset]]].
  - destruct (amazon_login_unconfigured X otp debug g Hmiss) as [detail ->].
    left. eexists. eexists. split; [reflexivity|].
    right. right. right. split; [reflexivity|reflexivity].
  - rewrite (amazon_login_attempt X otp debug g u p Hset). cbv zeta.
    destruct (run_login _ _) as [[[]|e] io] eqn:Hrun.
    + left. eexists. eexists. split; [reflexivity|]. left.
      split; [reflexivity|]. split; [eexists; reflexivity | reflexivity].
    + destruct (is_otp_required e).
      * left. eexists. eexists. split; [reflexivity|]. right. left. tauto.
      * destruct (is_exception e) eqn:Hexc.
        -- left.
           destruct (contains "Authentication attempts exhausted" (exn_msg e));
             eexists; eexists; (split; [reflexivity|]).
           ++ right. right. left. split; reflexivity.
           ++ right. right. right.
              split; [unfold login_failed_text; apply starts_with_app
                     | reflexivity].
        -- right. exists e. eexists. exists u, p, io.
           split; [reflexivity|]. split; [exact Hexc|].
           split; [exact Hset|]. split; [exact Hrun|].
           split; reflexivity.
Qed.

(** X7: with both credentials configured [amazon_login] always
    authenticates afresh, even when a client is already cached: the
    provider's [login()] is called exactly once and the stored session
    is replaced by the one just built from the environment. *)
Theorem amazon_login_always_relogs
        (X : Externals) (otp : option string) (debug : bool) (g : Globals)
        (u p : string) :
  credentials_set X u p ->
  login_calls (snd (amazon_login X otp debug g)) = S (login_calls g)
  /\ _session (snd (amazon_login X otp debug g)) = Some (session_of X u p debug).
Proof.
  intros Hset. rewrite (amazon_login_attempt X otp debug g u p Hset). cbv zeta.
  destruct (run_login _ _) as [[[]|e] io]; [split; reflexivity|].
  destruct (is_otp_required e); [split; reflexivity|].
  destruct (is_exception e); split; reflexivity.
Qed.

Lemma amazon_login_always_relogs_witness :
  login_calls (snd (amazon_login Samples.X_plain None true Samples.logged_in)) = 2.
Proof.
  apply (amazon_login_always_relogs Samples.X_plain None true Samples.logged_in
           "user@example.com"%string "hunter2"%string).
  repeat split.
Defined.

(** X8: a login that fails with an exception other than
    [OTPRequiredError], the handler having recorded no OTP request,
    leaves [_pending_otp_request] as it was: it is neither set nor
    cleared, so an OTP that was pending stays pending. *)
Theorem failed_login_keeps_pending
        (X : Externals) (otp : option string) (debug : bool) (g : Globals)
        (u p : string) (e : exn) (io : MCPIOHandler) :
  credentials_set X u p ->
  run_login (session_login X (session_of X u p debug)) (new_io_handler otp)
  = (Raise e, io) ->
  is_otp_required e = false ->
  otp_requested io = false ->
  snd (amazon_login X otp debug g)
  = after_attempt g (session_of X u p debug) None (_pending_otp_request g).
Proof.
  intros Hset Hrun Hcls Hreq.
  rewrite (amazon_login_attempt X otp debug g u p Hset). cbv zeta.
  rewrite Hrun, Hcls, Hreq. now destruct (is_exception e).
Qed.

Lemma scan_items_format_exc (X : Externals) (f : exn -> string)
      (search_lower : string) (its : list Item) :
  scan_items (with_format_exc X f) search_lower its
  = scan_items X search_lower its.
Proof.
  induction its as [|item rest IH]; simpl; [reflexivity|].
  rewrite IH. reflexivity.
Qed.

Lemma scan_orders_format_exc (X : Externals) (f : exn -> string)
      (search_lower : string) (orders : list Order) :
  scan_orders (with_format_exc X f) search_lower orders
  = scan_orders X search_lower orders.
Proof.
  unfold scan_orders. generalize (@nil Order).
  induction orders as [|order rest IH]; intros acc; [reflexivity|].
  rewrite !scan_orders_from_step, scan_items_format_exc.
  destruct (scan_items X search_lower (items order)) as [[|]|e];
    [apply IH | apply IH | reflexivity].
Qed.

(** X9: without [debug] the traceback is never used: the text and the
    globals that [amazon_login] returns do not depend on
    [traceback.format_exc], and the query tools never depend on it. *)
Theorem traceback_only_in_debug
        (X : Externals) (f : exn -> string) (otp : option string) (g : Globals) :
  amazon_login (with_format_exc X f) otp false g = amazon_login X otp false g
  /\ forall q, run_query (with_format_exc X f) q g = run_query X q g.
Proof.
  split.
  - unfold amazon_login.
    change (get_orders_client (with_format_exc X f) otp false)
      with (get_orders_client X otp false).
    destruct (get_orders_client X otp false _) as [[client|e] g1]; reflexivity.
  - intros q. destruct q; try reflexivity.
    simpl. unfold amazon_search_orders.
    change (get_orders_client (with_format_exc X f) None false)
      with (get_orders_client X None false).
    destruct (get_orders_client X None false g) as [[client|e] g1];
      [|reflexivity].
    change (get_order_history (with_format_exc X f)) with (get_order_history X).
    change (make_kwargs (with_format_exc X f)) with (make_kwargs X).
    destruct (get_order_history X client _) as [orders|e]; [|reflexivity].
    cbv zeta.
    change (str_lower (with_format_exc X f)) with (str_lower X).
    rewrite scan_orders_format_exc. reflexivity.
Qed.

Lemma failed_login_keeps_pending_witness :
  _pending_otp_request
    (snd (amazon_login Samples.X_offline None false Samples.awaiting_otp)) = true
  /\ _pending_otp_request
       (snd (amazon_login Samples.X_offline None false initial)) = false.
Proof.
  split.
  - rewrite (failed_login_keeps_pending Samples.X_offline None false
               Samples.awaiting_otp "user@example.com"%string "hunter2"%string
               Samples.boom (new_io_handler None));
      [reflexivity | repeat split | reflexivity | reflexivity | reflexivity].
  - rewrite (failed_login_keeps_pending Samples.X_offline None false initial
               "user@example.com"%string "hunter2"%string
               Samples.boom (new_io_handler None));
      [reflexivity | repeat split | reflexivity | reflexivity | reflexivity].
Defined.

(* ================================================================== *)
(** ** Sessions of calls *)

Lemma run_query_globals (X : Externals) (q : Query) (g : Globals) :
  snd (run_query X q g) = snd (get_orders_client X None false g).
Proof.
  destruct (get_orders_client X None false g) as [[client|e] g1] eqn:H.
  - now rewrite (run_query_keeps_globals X q g g1 client H).
  - rewrite (run_query_unauthenticated X q g g1 e H).
    now destruct (is_exception e).
Qed.

(** What [get_orders_client] can do to the globals. *)
Lemma get_orders_client_globals (X : Externals) (otp : option string)
      (debug : bool) (g : Globals) :
  snd (get_orders_client X otp debug g) = g
  \/ exists s,
      (snd (get_orders_client X otp debug g)
       = after_attempt g s (Some {| amazon_session := s |}) false)
      \/ (exists pending,
             snd (get_orders_client X otp debug g)
             = {| _session := Some s; _orders_client := _orders_client g;
                  _pending_otp_request := pending;
                  login_calls := S (login_calls g) |}
             /\ (_orders_client g = None \/ _pending_otp_request g = true)).
Proof.
  unfold get_orders_client.
  destruct (_orders_client g) as [client|] eqn:Hc;
    [destruct (_pending_otp_request g) eqn:Hp; [|now left]|]; cbn [negb].
  - destruct (environ_get X "AMAZON_USERNAME") as [u|]; [|now left].
    destruct (environ_get X "AMAZON_PASSWORD") as [p|]; [|now left].
    destruct (nonempty u && nonempty p); [|now left].
    destruct (run_login _ _) as [[[]|e] io]; right; eexists.
    + left. reflexivity.
    + right. eexists. split; [reflexivity | now right].
  - destruct (environ_get X "AMAZON_USERNAME") as [u|]; [|now left].
    destruct (environ_get X "AMAZON_PASSWORD") as [p|]; [|now left].
    destruct (nonempty u && nonempty p); [|now left].
    destruct (run_login _ _) as [[[]|e] io]; right; eexists.
    + left. reflexivity.
    + right. eexists. split; [reflexivity | now left].
Qed.

Lemma amazon_login_globals (X : Externals) (otp : option string)
      (debug : bool) (g : Globals) :
  snd (amazon_login X otp debug g) = reset g
  \/ exists s,
      (snd (amazon_login X otp debug g)
       = after_attempt g s (Some {| amazon_session := s |}) false)
      \/ (exists pending,
             snd (amazon_login X otp debug g) = after_attempt g s None pending).
Proof.
  destruct (credentials_set_or_missing X) as [Hmiss | [u [p Hset]]].
  - destruct (amazon_login_unconfigured X otp debug g Hmiss) as [detail ->].
    now left.
  - right. exists (session_of X u p debug).
    rewrite (amazon_login_attempt X otp debug g u p Hset). cbv zeta.
    destruct (run_login _ _) as [[[]|e] io]; [now left|].
    right. destruct (is_otp_required e); [eexists; reflexivity|].
    destruct (is_exception e); eexists; reflexivity.
Qed.

Lemma run_call_consistent (X : Externals) (c : Call) (g : Globals) :
  client_consistent g -> client_consistent (snd (run_call X c g)).
Proof.
  intros Hg. destruct c as [otp debug | q]; simpl.
  - destruct (amazon_login_globals X otp debug g) as [-> | [s [-> | [pending ->]]]];
      intros client Hc; simpl in Hc; try discriminate.
    injection Hc as <-. split; reflexivity.
  - rewrite run_query_globals.
    destruct (get_orders_client_globals X None false g)
      as [-> | [s [-> | [pending [-> Hwhy]]]]]; [assumption | |].
    + intros client Hc. simpl in Hc. injection Hc as <-. split; reflexivity.
    + intros client Hc. simpl in Hc.
      destruct Hwhy as [Hnone | Hpending]; [congruence|].
      destruct (Hg client Hc) as [Hp _]. congruence.
Qed.

Lemma run_call_login_calls (X : Externals) (c : Call) (g : Globals) :
  login_calls g <= login_calls (snd (run_call X c g)) <= S (login_calls g).
Proof.
  destruct c as [otp debug | q]; simpl.
  - destruct (amazon_login_globals X otp debug g) as [-> | [s [-> | [pending ->]]]];
      simpl; lia.
  - rewrite run_query_globals.
    destruct (get_orders_client_globals X None false g)
      as [-> | [s [-> | [pending [-> _]]]]]; simpl; lia.
Qed.

(** X10: whatever tools are called, in whatever order and with whatever
    arguments, starting from the fresh globals: whenever a client is
    cached it belongs to the stored session and no OTP is pending.  So
    the test on [_pending_otp_request] in the fast path of
    [get_orders_client] never turns a cached client down. *)
Theorem sessions_keep_client_consistent (X : Externals) (cs : list Call) :
  client_consistent (snd (run_calls X cs initial))
  /\ forall otp debug client,
      _orders_client (snd (run_calls X cs initial)) = Some client ->
      get_orders_client X otp debug (snd (run_calls X cs initial))
      = (Ok client, snd (run_calls X cs initial)).
Proof.
  assert (H : forall g, client_consistent g ->
                        client_consistent (snd (run_calls X cs g))).
  { induction cs as [|c rest IH]; intros g Hg; simpl; [assumption|].
    pose proof (run_call_consistent X c g Hg) as Hc.
    destruct (run_call X c g) as [r g1]. simpl in Hc.
    specialize (IH g1 Hc). now destruct (run_calls X rest g1). }
  assert (Hinit : client_consistent initial) by (intros client Hc; discriminate).
  split; [now apply H|].
  intros otp debug client Hc. apply get_orders_client_cached; [assumption|].
  now destruct (H initial Hinit client Hc).
Qed.

Lemma sessions_keep_client_consistent_witness :
  get_orders_client Samples.X_code None false
    (snd (run_calls Samples.X_code
            [Ask (GetOrder "A-1"); Login None false;
             Login (Some "123456"%string) false] initial))
  = (Ok {| amazon_session := Samples.a_session |},
     snd (run_calls Samples.X_code
            [Ask (GetOrder "A-1"); Login None false;
             Login (Some "123456"%string) false] initial)).
Proof.
  apply (sessions_keep_client_consistent Samples.X_code
           [Ask (GetOrder "A-1"); Login None false;
            Login (Some "123456"%string) false]).
  reflexivity.
Defined.

(** X11: a tool call makes the provider log in at most once, and never
    undoes the count: after any list of calls the provider's [login()]
    has been called at most once per call. *)
Theorem one_provider_login_per_call
        (X : Externals) (cs : list Call) (g : Globals) :
  login_calls g <= login_calls (snd (run_calls X cs g))
  <= login_calls g + length cs.
Proof.
  revert g; induction cs as [|c rest IH]; intros g; simpl; [lia|].
  pose proof (run_call_login_calls X c g) as Hc.
  destruct (run_call X c g) as [r g1]. simpl in Hc.
  specialize (IH g1). destruct (run_calls X rest g1) as [rs g2].
  simpl in *. lia.
Qed.

(** X12: the two-step login.  When the provider asks for the OTP and lets
    the handler's signal through, and accepts the code [code] once it is
    given, then [amazon_login()] followed by [amazon_login(code)]
    answers [OTP_REQUIRED] and then success, calls the provider's
    [login()] twice, and ends with a client cached, no OTP pending; the
    queries that follow leave the globals alone. *)
Theorem login_then_otp_code
        (X : Externals) (code : string) (debug : bool) (g : Globals)
        (u p : string) (io : MCPIOHandler) (qs : list Query) :
  credentials_set X u p ->
  let s := session_of X u p debug in
  asks_for_otp (session_login X s) ->
  run_login (session_login X s) (new_io_handler (Some code)) = (Ok tt, io) ->
  fst (run_calls X [Login None debug; Login (Some code) debug] g)
  = [Ok otp_required_text; Ok login_ok]
  /\ snd (run_calls X ([Login None debug; Login (Some code) debug]
                        ++ map Ask qs) g)
     = {| _session := Some s;
          _orders_client := Some {| amazon_session := s |};
          _pending_otp_request := false;
          login_calls := S (S (login_calls g)) |}.
Proof.
  intros Hset s Hasks Hcode.
  pose proof (amazon_login_attempt X None debug g u p Hset) as H1.
  cbv zeta in H1. fold s in H1.
  rewrite (run_login_asks_for_otp _ None Hasks eq_refl) in H1. simpl in H1.
  set (g1 := after_attempt g s None true) in *.
  pose proof (amazon_login_attempt X (Some code) debug g1 u p Hset) as H2.
  cbv zeta in H2. fold s in H2. rewrite Hcode in H2.
  split.
  - simpl. now rewrite H1, H2.
  - simpl. rewrite H1, H2.
    set (g2 := after_attempt g1 s (Some {| amazon_session := s |}) false).
    assert (Hqs : snd (run_calls X (map Ask qs) g2) = g2).
    { induction qs as [|q rest IH]; simpl; [reflexivity|].
      pose proof (run_query_keeps_globals X q g2 g2 {| amazon_session := s |}
                    (get_orders_client_cached X None false g2 _ eq_refl eq_refl))
        as Hq.
      destruct (run_query X q g2) as [r gq]. simpl in Hq. subst gq.
      now destruct (run_calls X (map Ask rest) g2). }
    destruct (run_calls X (map Ask qs) g2) as [rs g3]. simpl in Hqs. now subst g3.
Qed.

Lemma login_then_otp_code_witness :
  fst (run_calls Samples.X_code
         [Login None false; Login (Some "123456"%string) false] initial)
  = [Ok otp_required_text; Ok login_ok].
Proof.
  apply (login_then_otp_code Samples.X_code "123456" false initial
           "user@example.com" "hunter2"
           {| otp_code := Some "123456"%string; otp_requested := true |} []).
  - repeat split.
  - apply asks_now. reflexivity.
  - reflexivity.
Defined.

(** X13: while the provider keeps asking for an OTP, queries made with
    no client cached do not fail fast: each of them calls the provider's
    [login()] once more, is answered [NOT_LOGGED_IN], and leaves no
    client cached. *)
Theorem queries_while_otp_needed
        (X : Externals) (qs : list Query) (g : Globals) (u p : string) :
  credentials_set X u p ->
  asks_for_otp (session_login X (session_of X u p false)) ->
  _orders_client g = None ->
  fst (run_queries X qs g) = map (fun _ => Ok not_logged_in_text) qs
  /\ login_calls (snd (run_queries X qs g)) = login_calls g + length qs
  /\ _orders_client (snd (run_queries X qs g)) = None.
Proof.
  intros Hset Hasks. revert g.
  induction qs as [|q rest IH]; intros g Hnone; simpl.
  - repeat split; [lia | assumption].
  - pose proof (get_orders_client_attempt X None false g u p Hnone Hset) as Hgoc.
    rewrite (run_login_asks_for_otp _ None Hasks eq_refl) in Hgoc.
    rewrite (run_query_unauthenticated X q g _ _ Hgoc).
    simpl.
    set (g1 := after_attempt g (session_of X u p false) None true).
    destruct (IH g1 eq_refl) as [Hr [Hn Hc]].
    destruct (run_queries X rest g1) as [rs g2]. simpl in *.
    split; [now rewrite Hr|]. split; [lia | assumption].
Qed.

Lemma queries_while_otp_needed_witness :
  login_calls
    (snd (run_queries Samples.X_2fa
            [GetOrder "A-1"; GetOrder "A-2"; SearchOrders "lamp" None None]
            Samples.awaiting_otp))
  = 1 + 3.
Proof.
  apply (queries_while_otp_needed Samples.X_2fa
           [GetOrder "A-1"; GetOrder "A-2"; SearchOrders "lamp" None None]
           Samples.awaiting_otp "user@example.com" "hunter2").
  - repeat split.
  - apply asks_after_echo, asks_now. reflexivity.
  - reflexivity.
Defined.

(* ================================================================== *)
(** ** The handler during a provider call *)

(** X14: the handler never makes up an answer: whatever it returns from
    [prompt] is the non-empty code it was built with, and only an OTP
    question gets it; with no code, or an empty one, every prompt
    raises. *)
Theorem prompt_answers_only_the_code (self : MCPIOHandler) (msg : string) :
  (forall answer,
      fst (prompt self msg) = Ok answer ->
      otp_code self = Some answer /\ answer <> ""%string
      /\ is_otp_prompt msg = true)
  /\ (str_truthy (otp_code self) = false ->
      exists e, fst (prompt self msg) = Raise e).
Proof.
  unfold prompt. split.
  - intros answer. destruct (is_otp_prompt msg); [|discriminate].
    destruct (otp_code self) as [c|]; [|discriminate].
    destruct c as [|a c]; [discriminate|].
    intros H. injection H as <-. repeat split. discriminate.
  - intros Hcode. destruct (is_otp_prompt msg); [|eexists; reflexivity].
    destruct (otp_code self) as [c|]; [|eexists; reflexivity].
    simpl in Hcode. rewrite Hcode. eexists; reflexivity.
Qed.

Lemma prompt_answers_only_the_code_witness :
  exists e, fst (prompt (new_io_handler (Some ""%string)) "Enter code") = Raise e.
Proof.
  destruct (prompt_answers_only_the_code (new_io_handler (Some ""%string))
                                         "Enter code") as [_ H].
  apply H. reflexivity.
Defined.

(** X15: a provider call, whatever it asks and catches, never changes the
    code the handler holds and never clears the record that an OTP was
    requested; and the provider's informational output changes nothing:
    the call ends the same way with every [echo] taken out. *)
Theorem run_login_handler (script : LoginScript) (io : MCPIOHandler) :
  otp_code (snd (run_login script io)) = otp_code io
  /\ (otp_requested io = true ->
      otp_requested (snd (run_login script io)) = true)
  /\ run_login (strip_echoes script) io = run_login script io.
Proof.
  revert io.
  induction script as [| e | msg next IH | msg on_answer IHa on_raise IHr];
    intros io; simpl.
  - tauto.
  - tauto.
  - apply IH.
  - assert (Hp : otp_code (snd (prompt io msg)) = otp_code io
                 /\ (otp_requested io = true ->
                     otp_requested (snd (prompt io msg)) = true)).
    { unfold prompt. destruct (is_otp_prompt msg); [|tauto].
      destruct (otp_code io) as [c|]; [destruct (nonempty c)|]; simpl; tauto. }
    destruct (prompt io msg) as [[answer|e] io']; simpl in Hp.
    + destruct (IHa answer io') as [H1 [H2 H3]].
      split; [now rewrite H1|]. split; [tauto | exact H3].
    + destruct (IHr e io') as [H1 [H2 H3]].
      split; [now rewrite H1|]. split; [tauto | exact H3].
Qed.

Lemma run_login_handler_witness :
  otp_requested
    (snd (run_login (Echoes "bye" (Fails Samples.boom))
                    {| otp_code := None; otp_requested := true |})) = true.
Proof.
  destruct (run_login_handler (Echoes "bye" (Fails Samples.boom))
                              {| otp_code := None; otp_requested := true |})
    as [_ [H _]].
  apply H. reflexivity.
Defined.

(* ================================================================== *)
(** ** Case and context *)

Lemma ascii_lower_char_idempotent (c : ascii) :
  ascii_lower_char (ascii_lower_char c) = ascii_lower_char c.
Proof.
  destruct c as [[] [] [] [] [] [] [] []]; reflexivity.
Qed.

Lemma ascii_lower_idempotent (s : string) :
  ascii_lower (ascii_lower s) = ascii_lower s.
Proof.
  induction s as [|c s IH]; simpl; [reflexivity|].
  now rewrite ascii_lower_char_idempotent, IH.
Qed.

Lemma ascii_lower_app (a b : string) :
  ascii_lower (a ++ b) = (ascii_lower a ++ ascii_lower b)%string.
Proof. induction a as [|c a IH]; simpl; [reflexivity | now rewrite IH]. Qed.

Lemma append_assoc (a b c : string) :
  ((a ++ b) ++ c)%string = (a ++ (b ++ c))%string.
Proof. induction a as [|x a IH]; simpl; [reflexivity | now rewrite IH]. Qed.

(** being a substring is transitive *)
Lemma contains_trans (a b c : string) :
  contains a b = true -> contains b c = true -> contains a c = true.
Proof.
  rewrite !contains_spec. intros [p1 [q1 ->]] [p2 [q2 ->]].
  exists (p2 ++ p1)%string, (q1 ++ q2)%string.
  now rewrite !append_assoc.
Qed.

Lemma contains_context (w pre m post : string) :
  contains w m = true -> contains w (pre ++ m ++ post) = true.
Proof.
  intros H. apply (contains_trans w m); [assumption|].
  apply contains_spec. now exists pre, post.
Qed.

(** X16: whether a prompt is taken for an OTP question depends neither
    on the case of its (ASCII) letters nor on what surrounds the trigger
    word: a message that is taken for one still is after lower-casing
    and after any text is put before and after it. *)
Theorem is_otp_prompt_case_and_context (msg : string) :
  is_otp_prompt (ascii_lower msg) = is_otp_prompt msg
  /\ (is_otp_prompt msg = true ->
      forall pre post, is_otp_prompt (pre ++ msg ++ post) = true).
Proof.
  split.
  - unfold is_otp_prompt. now rewrite ascii_lower_idempotent.
  - unfold is_otp_prompt. intros H pre post.
    rewrite !orb_true_iff in *. rewrite !ascii_lower_app.
    destruct H as [[H|H]|H]; [left; left | left; right | right];
      now apply contains_context.
Qed.

Lemma is_otp_prompt_case_and_context_witness :
  is_otp_prompt ("Please " ++ "enter your postCODE" ++ " now") = true.
Proof.
  destruct (is_otp_prompt_case_and_context "enter your postCODE") as [_ H].
  apply (H eq_refl "Please "%string " now"%string).
Defined.

(* ================================================================== *)
(** ** More on the search *)

Lemma filter_subsequence {A : Type} (f : A -> bool) (l : list A) :
  subsequence (filter f l) l.
Proof.
  induction l as [|x l IH]; simpl; [constructor|].
  destruct (f x); now constructor.
Qed.

Lemma filter_narrower {A : Type} (f h : A -> bool) (l : list A) :
  (forall x, f x = true -> h x = true) ->
  filter f l = filter f (filter h l).
Proof.
  intros Hfh. induction l as [|x l IH]; simpl; [reflexivity|].
  destruct (f x) eqn:Hf.
  - rewrite (Hfh x Hf). simpl. now rewrite Hf, IH.
  - destruct (h x); simpl; [now rewrite Hf|]; exact IH.
Qed.

Lemma title_hit_narrower (X : Externals) (s1 s2 : string) (item : Item) :
  contains s1 s2 = true ->
  title_hit X s2 item = true -> title_hit X s1 item = true.
Proof.
  unfold title_hit. intros H12. destruct (title item) as [|z|t|truth repr]; try easy.
  rewrite !andb_true_iff. intros [Hne H2]. split; [assumption|].
  now apply (contains_trans s1 s2).
Qed.

(** the loop ends on a part of a list on which it ends *)
Lemma scan_orders_on_filter (X : Externals) (search_lower : string)
      (h : Order -> bool) (orders matching : list Order) :
  scan_orders X search_lower orders = Ok matching ->
  scan_orders X search_lower (filter h orders)
  = Ok (filter (fun order =>
                  existsb (title_hit X search_lower) (items order))
               (filter h orders)).
Proof.
  intros Hscan. apply scan_orders_ok in Hscan. destruct Hscan as [Hall _].
  apply scan_orders_ok. split; [|reflexivity].
  rewrite Forall_forall in *. intros order Hin.
  apply filter_In in Hin. now apply Hall.
Qed.

(** X17: when the search loop ends, what it returns is a subsequence of
    what the provider returned (nothing added, nothing reordered,
    nothing twice that was there once); every order it returns has at
    least one item, so an order without items is never returned, not
    even for the empty term; and searching the result again for the same
    term changes nothing.  The loop ends whenever every title is a
    string or falsy. *)
Theorem scan_orders_selects
        (X : Externals) (search_lower : string) (orders : list Order) :
  (plain_titles orders ->
   exists matching, scan_orders X search_lower orders = Ok matching)
  /\ (forall matching,
         scan_orders X search_lower orders = Ok matching ->
         subsequence matching orders
         /\ (forall order, In order matching ->
                           In order orders /\ items order <> [])
         /\ scan_orders X search_lower matching = Ok matching).
Proof.
  split.
  - intros Hplain. eexists. now apply scan_orders_plain.
  - intros matching Hscan.
    pose proof (scan_orders_on_filter X search_lower
                  (fun order => existsb (title_hit X search_lower) (items order))
                  orders matching Hscan) as Hagain.
    apply scan_orders_ok in Hscan. destruct Hscan as [_ ->].
    split; [apply filter_subsequence|]. split.
    + intros order Hin. apply filter_In in Hin. destruct Hin as [Hin Hex].
      split; [assumption|]. intros Hnil. rewrite Hnil in Hex. discriminate.
    + rewrite Hagain. f_equal. symmetry. apply filter_narrower. tauto.
Qed.

Lemma scan_orders_selects_witness :
  items (Samples.bare_order "A-2"
           [Samples.item_titled "Desk Lamp";
            Samples.item_titled "Wireless Headphones"]) <> []
  /\ scan_orders Samples.X_plain "lamp"
       [Samples.bare_order "A-2"
          [Samples.item_titled "Desk Lamp";
           Samples.item_titled "Wireless Headphones"]]
     = Ok [Samples.bare_order "A-2"
             [Samples.item_titled "Desk Lamp";
              Samples.item_titled "Wireless Headphones"]].
Proof.
  destruct (scan_orders_selects Samples.X_plain "lamp" Samples.fixture)
    as [_ H].
  destruct (H [Samples.bare_order "A-2"
                 [Samples.item_titled "Desk Lamp";
                  Samples.item_titled "Wireless Headphones"]] eq_refl)
    as [_ [Hitems Hagain]].
  split; [|exact Hagain].
  apply (Hitems (Samples.bare_order "A-2"
                   [Samples.item_titled "Desk Lamp";
                    Samples.item_titled "Wireless Headphones"])).
  simpl. tauto.
Defined.

Lemma is_ascii_lower_char (c : ascii) :
  (nat_of_ascii (ascii_lower_char c) <? 128)%nat = (nat_of_ascii c <? 128)%nat.
Proof.
  destruct c as [[] [] [] [] [] [] [] []]; reflexivity.
Qed.

Lemma is_ascii_lower (s : string) : is_ascii (ascii_lower s) = is_ascii s.
Proof.
  induction s as [|c s IH]; simpl; [reflexivity|].
  now rewrite is_ascii_lower_char, IH.
Qed.

Lemma sample_lower_step (c d : ascii) (rest : string) :
  Samples.latin1_capital c d = false ->
  Samples.sample_lower (String c (String d rest))
  = String (ascii_lower_char c) (Samples.sample_lower (String d rest)).
Proof. intros H. cbn [Samples.sample_lower]. now rewrite H. Qed.

(** the stand-in for [str.lower] is right on ASCII text *)
Lemma sample_lower_on_ascii (s : string) :
  is_ascii s = true -> Samples.sample_lower s = ascii_lower s.
Proof.
  induction s as [|c rest IH]; [reflexivity|].
  cbn [is_ascii]. rewrite andb_true_iff. intros [Hc Hrest].
  destruct rest as [|d rest']; [reflexivity|].
  rewrite sample_lower_step.
  - rewrite (IH Hrest). reflexivity.
  - unfold Samples.latin1_capital.
    apply Nat.ltb_lt in Hc.
    destruct (Nat.eqb_spec (nat_of_ascii c) 195) as [H|_]; [lia | reflexivity].
Qed.

(** X18: the search does not see the case of the letters of an ASCII
    search term ([str.lower] being, on ASCII text, the lower-casing of
    the ASCII letters): two ASCII terms that differ only by case give
    the same answer and the same globals, in every state; in particular
    a term and its lower-cased form do. *)
Theorem search_ignores_term_case
        (X : Externals) (term term' : string) (year : option Z)
        (time_filter : option string) (g : Globals) :
  lower_on_ascii X ->
  is_ascii term = true -> is_ascii term' = true ->
  ascii_lower term = ascii_lower term' ->
  amazon_search_orders X term year time_filter g
  = amazon_search_orders X term' year time_filter g
  /\ amazon_search_orders X (ascii_lower term) year time_filter g
     = amazon_search_orders X term year time_filter g.
Proof.
  intros HX Ht Ht' H. unfold amazon_search_orders.
  rewrite (HX (ascii_lower term)) by now rewrite is_ascii_lower.
  rewrite (HX term Ht), (HX term' Ht'), ascii_lower_idempotent, H. tauto.
Qed.

Lemma search_ignores_term_case_witness :
  amazon_search_orders Samples.X_plain "HeadPhones" None None Samples.logged_in
  = amazon_search_orders Samples.X_plain "HEADPHONES" None None Samples.logged_in.
Proof.
  apply (search_ignores_term_case Samples.X_plain "HeadPhones" "HEADPHONES");
    [exact sample_lower_on_ascii | reflexivity | reflexivity | reflexivity].
Defined.

(** X19: in the search loop a lower-cased term never finds more than a
    lower-cased term that occurs inside it: when [s1] occurs in [s2],
    the orders found for [s2] are among those found for [s1], in the
    same order, and they are what searching the result for [s1] once
    more for [s2] gives.  For ASCII terms this is how the terms
    themselves stand: when [t1] occurs in [t2], the lower-cased [t1]
    occurs in the lower-cased [t2]. *)
Theorem longer_term_finds_less (X : Externals) :
  (forall s1 s2 orders m1 m2,
      contains s1 s2 = true ->
      scan_orders X s1 orders = Ok m1 ->
      scan_orders X s2 orders = Ok m2 ->
      subsequence m2 m1 /\ scan_orders X s2 m1 = Ok m2)
  /\ (lower_on_ascii X ->
      forall t1 t2,
        is_ascii t1 = true -> is_ascii t2 = true ->
        contains t1 t2 = true ->
        contains (str_lower X t1) (str_lower X t2) = true).
Proof.
  split.
  - intros s1 s2 orders m1 m2 H12 H1 H2.
    pose proof (scan_orders_on_filter X s2
                  (fun order => existsb (title_hit X s1) (items order))
                  orders m2 H2) as Hagain.
    apply scan_orders_ok in H1. destruct H1 as [_ ->].
    apply scan_orders_ok in H2. destruct H2 as [_ ->].
    assert (Heq : filter (fun order => existsb (title_hit X s2) (items order))
                         orders
                  = filter (fun order => existsb (title_hit X s2) (items order))
                           (filter (fun order =>
                                      existsb (title_hit X s1) (items order))
                                   orders)).
    { apply filter_narrower. intros order Hex.
      apply existsb_exists in Hex. destruct Hex as [item [Hin Hm]].
      apply existsb_exists. exists item. split; [assumption|].
      now apply (title_hit_narrower X s1 s2). }
    split.
    + rewrite Heq. apply filter_subsequence.
    + rewrite Hagain. now rewrite <- Heq.
  - intros HX t1 t2 H1 H2 H12.
    rewrite (HX t1 H1), (HX t2 H2).
    apply contains_spec in H12. destruct H12 as [pre [post ->]].
    apply contains_spec.
    exists (ascii_lower pre), (ascii_lower post).
    now rewrite !ascii_lower_app.
Qed.

Lemma longer_term_finds_less_witness :
  scan_orders Samples.X_plain "wireless head"
    [Samples.bare_order "A-1" [Samples.item_titled "USB Cable"];
     Samples.bare_order "A-2"
       [Samples.item_titled "Desk Lamp";
        Samples.item_titled "Wireless Headphones"]]
  = Ok [Samples.bare_order "A-2"
          [Samples.item_titled "Desk Lamp";
           Samples.item_titled "Wireless Headphones"]]
  /\ contains (Samples.sample_lower "less")
              (Samples.sample_lower "Wireless Head") = true.
Proof.
  destruct (longer_term_finds_less Samples.X_plain) as [Hloop Hterms].
  split.
  - apply (Hloop "e" "wireless head" Samples.fixture); reflexivity.
  - apply (Hterms sample_lower_on_ascii "less" "Wireless Head"); reflexivity.
Defined.

(* ================================================================== *)
(** ** Amounts are written as text *)

(** X20: the dates and amounts of a serialized order are text.  Under
    ["order_placed_date"], ["grand_total"] and the fourteen optional
    keys [order_to_dict] holds a string, or [null] (for the first two
    only), never a number, whatever the attribute was; the price of a
    serialized item is a string or [null].  The order number, and the
    title, quantity, link and condition of an item, are handed on as
    they are, [None] as [null]. *)
Theorem order_to_dict_scalars (order : Order) :
  (forall k v,
      In k ("order_placed_date" :: "grand_total" :: optional_fields) ->
      dict_get (order_to_dict order) k = Some v ->
      (exists s, v = JStr s)
      \/ (v = JNull /\ In k ["order_placed_date"; "grand_total"]))
  /\ dict_get (order_to_dict order) "order_number"
     = Some (json_of_raw (order_number order))
  /\ (forall item,
         (dict_get (item_to_dict item) "price" = Some JNull
          \/ exists s, dict_get (item_to_dict item) "price" = Some (JStr s))
         /\ dict_get (item_to_dict item) "title" = Some (json_of_raw (title item))
         /\ dict_get (item_to_dict item) "quantity"
            = Some (json_of_raw (quantity item))
         /\ dict_get (item_to_dict item) "link" = Some (json_of_raw (link item))
         /\ dict_get (item_to_dict item) "condition"
            = Some (json_of_raw (condition item))).
Proof.
  split; [|split].
  - intros k v Hin Hget.
    destruct Hin as [<- | [<- | Hopt]].
    + rewrite (order_to_dict_base order "order_placed_date") in Hget
        by (simpl; tauto).
      cbn in Hget.
      destruct (truthy (order_placed_date order)); injection Hget as <-;
        [left; eexists; reflexivity | right; simpl; tauto].
    + rewrite (order_to_dict_base order "grand_total") in Hget
        by (simpl; tauto).
      cbn in Hget.
      destruct (truthy (grand_total order)); injection Hget as <-;
        [left; eexists; reflexivity | right; simpl; tauto].
    + rewrite (order_to_dict_optional order k Hopt) in Hget.
      destruct (is_not_none (getattr order k)); [|discriminate].
      injection Hget as <-. left. eexists; reflexivity.
  - now rewrite (order_to_dict_base order "order_number") by (simpl; tauto).
  - intros item. split; [|repeat split].
    cbn. destruct (truthy (price item)); [right; eexists; reflexivity | now left].
Qed.

Lemma order_to_dict_scalars_witness :
  (exists s, JStr "1234" = JStr s)
  \/ (JStr "1234" = JNull /\ In "payment_method_last_4"%string
                                ["order_placed_date"%string; "grand_total"%string]).
Proof.
  destruct (order_to_dict_scalars Samples.full_order) as [H _].
  apply (H "payment_method_last_4"%string (JStr "1234"));
    [simpl; tauto | reflexivity].
Defined.
